(** * Type-Scribe AI backend: the request pipeline of [backend/app/main.py]

    A shallow embedding of the FastAPI handler [generate_sdk_endpoint] and of
    its helpers, followed by the properties of the pipeline.

    Modelling conventions.
    - A Python [str] is a [string]; a character stands for a code point below
      256, so [lower] and [strip] follow Python's tables on that range.
    - [Optional[T]] is [option T]; Python truthiness is written out
      ([truthy], [truthy_opt]).
    - Every [await] on a collaborator (the Graphlit client, the Agno agents,
      the uploaded file) is a call through [Env]: it appends one [Event] to the
      trace, may change the collaborator's state and either returns or throws.
      Collaborators throw library errors, never the web framework's
      [HTTPException].
    - Exceptions are values of [exn]; [try ... except] is [try_except].
      Only subclasses of [Exception] are modelled.
    - [logger] calls are left out, except where building the logged text can
      itself fail. *)

From Stdlib Require Import String Ascii List ZArith Bool Lia DecimalString Sorted.
Import ListNotations.
Open Scope string_scope.

(** ** Python string operations *)

Module Py.

(** [kw in s] on two [str] values. *)
Fixpoint contains (kw s : string) : bool :=
  if String.prefix kw s then true
  else match s with
       | EmptyString => false
       | String _ s' => contains kw s'
       end.

(** [s.endswith(suffix)]. *)
Fixpoint endswith (s suffix : string) : bool :=
  if String.eqb s suffix then true
  else match s with
       | EmptyString => false
       | String _ s' => endswith s' suffix
       end.

(** [c.lower()] on the code points below 256: A-Z, and the Latin-1 capitals
    0xC0-0xDE without the multiplication sign 0xD7. *)
Definition lower_char (c : ascii) : ascii :=
  let n := nat_of_ascii c in
  if ((65 <=? n) && (n <=? 90))%nat
     || ((192 <=? n) && (n <=? 222) && negb (n =? 215))%nat
  then ascii_of_nat (n + 32) else c.

Fixpoint lower (s : string) : string :=
  match s with
  | EmptyString => EmptyString
  | String c s' => String (lower_char c) (lower s')
  end.

(** [c.isspace()] on the code points below 256. *)
Definition isspace (c : ascii) : bool :=
  let n := nat_of_ascii c in
  (((9 <=? n) && (n <=? 13)) || ((28 <=? n) && (n <=? 32))
   || (n =? 133) || (n =? 160))%nat.

Fixpoint lstrip (s : string) : string :=
  match s with
  | EmptyString => EmptyString
  | String c s' => if isspace c then lstrip s' else s
  end.

Fixpoint rstrip (s : string) : string :=
  match s with
  | EmptyString => EmptyString
  | String c s' =>
      match rstrip s' with
      | EmptyString => if isspace c then EmptyString else String c EmptyString
      | r => String c r
      end
  end.

(** [s.strip()]. *)
Definition strip (s : string) : string := rstrip (lstrip s).

(** [bool(s)] for a [str]. *)
Definition truthy (s : string) : bool := negb (String.eqb s "").

(** [bool(x)] for an [Optional[str]]. *)
Definition truthy_opt (x : option string) : bool :=
  match x with Some s => truthy s | None => false end.

(** [any(p(x) for x in l)]. *)
Definition any {A} (p : A -> bool) (l : list A) : bool := existsb p l.

(** A string all of whose characters are whitespace (the empty one too). *)
Fixpoint blank (s : string) : bool :=
  match s with
  | EmptyString => true
  | String c s' => isspace c && blank s'
  end.

End Py.

(** ** Exceptions *)

(** What a collaborator library can throw.  A [GraphQLClientError] carries
    [str(e.errors)] when the instance has an [errors] attribute, and [str(e)]. *)
Inductive lib_error : Type :=
| GraphQLClientError (errors : option string) (text : string)
| OtherError (text : string).

Inductive exn : Type :=
| HTTPException (status_code : Z) (detail : string)
| LibError (e : lib_error).

Inductive outcome (A : Type) : Type :=
| Returns (a : A)
| Throws (e : lib_error).
Arguments Returns {A} a.
Arguments Throws {A} e.

Inductive result (A : Type) : Type :=
| Ok (a : A)
| Raise (e : exn).
Arguments Ok {A} a.
Arguments Raise {A} e.

(** The errors CPython raises on the attribute and item accesses of the source. *)
Definition AttributeError (attr : string) : exn :=
  LibError (OtherError ("'NoneType' object has no attribute '" ++ attr ++ "'")).
Definition TypeError_not_subscriptable : exn :=
  LibError (OtherError "'NoneType' object is not subscriptable").
Definition TypeError_fspath : exn :=
  LibError (OtherError "expected str, bytes or os.PathLike object, not NoneType").

(** ** Data model *)

Definition bytes := list Byte.byte.

Record UploadFile : Type := {
  filename : option string;
  content_type : option string;
  file_data : bytes
}.

(** The form fields of [POST /generate-sdk]. *)
Record SdkRequest : Type := {
  sdk_name : string;
  version : string;
  base_url : string;
  doc_url : option string;
  doc_file : option UploadFile
}.

Record GenerateSdkResponse : Type := {
  sdk_code : string;
  sdk_usage_example : string;
  message : string
}.

Inductive FilePreparationServiceTypes : Type := AZURE_DOCUMENT_INTELLIGENCE.
Inductive AzureDocumentIntelligenceModels : Type := LAYOUT.

Record FilePreparationConnectorInput : Type := {
  connector_type : FilePreparationServiceTypes;
  azureDocument : AzureDocumentIntelligenceModels
}.

Record WorkflowInput : Type := {
  wi_name : string;
  preparation_jobs : list FilePreparationConnectorInput
}.

(** Responses of the Graphlit client, down to the attributes the code reads. *)
Record Entity : Type := { entity_id : string }.
Record WorkflowResults : Type := { results : option (list (option Entity)) }.
Record QueryWorkflows : Type := { workflows : option WorkflowResults }.
Record CreateWorkflow : Type := { create_workflow_ : option Entity }.
Record IngestUri : Type := { ingest_uri_ : option Entity }.
Record IngestEncodedFile : Type := { ingest_encoded_file_ : option Entity }.
Record Content : Type := { markdown : option string }.
Record GetContent : Type := { content : option Content }.
(** The [content] of an Agno run response. *)
Record RunResponse : Type := { run_content : option string }.

(** One entry per awaited call, in the order the calls are made. *)
Inductive Event : Type :=
| EvQueryWorkflows (name : string)
| EvCreateWorkflow (input : WorkflowInput)
| EvIngestUri (uri workflow : string)
| EvIngestEncodedFile (name : option string) (data : string)
                      (mime_type : option string) (workflow : string)
| EvGetContent (content_id : string)
| EvReadUpload (name : option string)
| EvTeamRun (prompt : string)
| EvUsageRun (prompt : string).

(** Calls that leave the process. *)
Definition is_network (ev : Event) : bool :=
  match ev with
  | EvReadUpload _ => false
  | _ => true
  end.

(** Invocations of a language model. *)
Definition is_model (ev : Event) : bool :=
  match ev with
  | EvTeamRun _ | EvUsageRun _ => true
  | _ => false
  end.

Definition is_create (ev : Event) : bool :=
  match ev with EvCreateWorkflow _ => true | _ => false end.


Definition is_file_use (ev : Event) : bool :=
  match ev with
  | EvReadUpload _ | EvIngestEncodedFile _ _ _ _ => true
  | _ => false
  end.

Definition is_get_content (ev : Event) : bool :=
  match ev with EvGetContent _ => true | _ => false end.

(** Library functions the handler calls, whose results depend on the
    installed versions and on the host. *)
Record Library : Type := {
  (** [mimetypes.guess_type(name)[0]] on a [str] *)
  guess_type : string -> option string;
  (** [base64.b64encode(data).decode("utf-8")] *)
  b64encode : bytes -> string;
  (** [str(HTTPException(status_code, detail))] *)
  http_exception_str : Z -> string -> string
}.

(** ** The pipeline *)

Section Pipeline.

(** [S] is the state of the collaborators (the ingestion service's store,
    the models' state). *)
Context {S : Type}.

(** The collaborators: the process-wide Graphlit client created at start-up
    and the two Agno entry points.  Each operation takes the collaborators'
    state and yields an outcome and the next state. *)
Record Env : Type := {
  (** [graphlit_client_instance] and its [client] are both set *)
  client_initialized : bool;
  query_workflows : string -> S -> outcome (option QueryWorkflows) * S;
  create_workflow : WorkflowInput -> S -> outcome CreateWorkflow * S;
  (** [ingest_uri(uri, workflow, is_synchronous=True)] *)
  ingest_uri : string -> string -> S -> outcome IngestUri * S;
  (** [ingest_encoded_file(name, data, mime_type, workflow, is_synchronous=True)] *)
  ingest_encoded_file :
    option string -> string -> option string -> string -> S ->
    outcome IngestEncodedFile * S;
  get_content : string -> S -> outcome (option GetContent) * S;
  (** [sdk_generation_team.arun(prompt)] *)
  team_arun : string -> S -> outcome RunResponse * S;
  (** building the usage agent and [usage_agent.arun(prompt)] *)
  usage_arun : string -> S -> outcome RunResponse * S
}.

Record St : Type := { svc : S; trace : list Event }.

(** Computations that read and write [St] and may raise. *)
Definition M (A : Type) : Type := St -> result A * St.

Definition ret {A} (a : A) : M A := fun st => (Ok a, st).

Definition raise {A} (e : exn) : M A := fun st => (Raise e, st).

Definition bind {A B} (m : M A) (k : A -> M B) : M B :=
  fun st =>
    match m st with
    | (Ok a, st') => k a st'
    | (Raise e, st') => (Raise e, st')
    end.

(** [try: m  except ... as e: handler e]; the handler decides by the class
    of [e], and an exception raised by the handler leaves the statement. *)
Definition try_except {A} (m : M A) (handler : exn -> M A) : M A :=
  fun st =>
    match m st with
    | (Ok a, st') => (Ok a, st')
    | (Raise e, st') => handler e st'
    end.

(** An awaited call on a collaborator. *)
Definition call {A} (ev : Event) (op : S -> outcome A * S) : M A :=
  fun st =>
    let (r, s') := op (svc st) in
    let st' := {| svc := s'; trace := trace st ++ [ev] |} in
    match r with
    | Returns a => (Ok a, st')
    | Throws e => (Raise (LibError e), st')
    end.

(** [await doc_file.read()]. *)
Definition read_upload (f : UploadFile) : M bytes :=
  fun st =>
    (Ok (file_data f),
     {| svc := svc st; trace := trace st ++ [EvReadUpload (filename f)] |}).

Notation "x <- m ;; k" := (bind m (fun x => k))
  (at level 61, m at next level, right associativity).

(** [x.attr] where [x] may be [None]. *)
Definition getattr {A} (attr : string) (x : option A) : M A :=
  match x with
  | Some a => ret a
  | None => raise (AttributeError attr)
  end.

Variable lib : Library.
Variable env : Env.

(** [str(e)]. *)
Definition str_exn (e : exn) : string :=
  match e with
  | HTTPException status detail => http_exception_str lib status detail
  | LibError (GraphQLClientError _ text) => text
  | LibError (OtherError text) => text
  end.

(** [str(e.errors) if hasattr(e, 'errors') else str(e)]. *)
Definition errors_or_str (errors : option string) (text : string) : string :=
  match errors with Some es => es | None => text end.

Definition get_graphlit_client : M unit :=
  if negb (client_initialized env)
  then raise (HTTPException 500
    "Graphlit client not initialized. Check backend logs for errors related to GRAPHLIT_ environment variables.")
  else ret tt.

Definition workflow_name : string := "ApiDocTextExtractionWorkflow".

Definition workflow_input : WorkflowInput :=
  {| wi_name := workflow_name;
     preparation_jobs :=
       [ {| connector_type := AZURE_DOCUMENT_INTELLIGENCE;
            azureDocument := LAYOUT |} ] |}.

(** [workflows and workflows.workflows and workflows.workflows.results]:
    the list when every level is truthy. *)
Definition found_workflows (r : option QueryWorkflows) : list (option Entity) :=
  match r with
  | Some {| workflows := Some {| results := Some l |} |} => l
  | _ => []
  end.

Definition get_or_create_graphlit_workflow : M string :=
  try_except
    (r <- call (EvQueryWorkflows workflow_name)
               (query_workflows env workflow_name) ;;
     match found_workflows r with
     | first :: _ =>
         w <- getattr "id" first ;;
         ret (entity_id w)
     | [] =>
         response <- call (EvCreateWorkflow workflow_input)
                          (create_workflow env workflow_input) ;;
         w <- getattr "id" (create_workflow_ response) ;;
         ret (entity_id w)
     end)
    (fun e =>
       match e with
       | LibError (GraphQLClientError (Some es) _) =>
           raise (HTTPException 500
             ("Graphlit API error during workflow creation: " ++ es))
       | LibError (GraphQLClientError None _) =>
           (* [e.errors] in the handler itself *)
           raise (LibError (OtherError
             "'GraphQLClientError' object has no attribute 'errors'"))
       | _ =>
           raise (HTTPException 500
             ("Backend error during Graphlit workflow setup: " ++ str_exn e))
       end).

(** [bool(file_content)] for an [Optional[bytes]]. *)
Definition truthy_bytes (b : option bytes) : bool :=
  match b with
  | Some (_ :: _) => true
  | _ => false
  end.

Definition ingest_document_with_graphlit
    (doc_name : option string) (doc_uri : option string)
    (file_content : option bytes) (mime_type : option string) : M string :=
  workflow_id <- get_or_create_graphlit_workflow ;;
  try_except
    (content_id <-
       (if Py.truthy_opt doc_uri then
          response <- call (EvIngestUri (match doc_uri with Some u => u | None => "" end)
                                        workflow_id)
                           (ingest_uri env
                              (match doc_uri with Some u => u | None => "" end)
                              workflow_id) ;;
          w <- getattr "id" (ingest_uri_ response) ;;
          ret (entity_id w)
        else if truthy_bytes file_content then
          let base64_content :=
            b64encode lib (match file_content with Some b => b | None => [] end) in
          response <- call (EvIngestEncodedFile doc_name base64_content
                                                mime_type workflow_id)
                           (ingest_encoded_file env doc_name base64_content
                                                mime_type workflow_id) ;;
          w <- getattr "id" (ingest_encoded_file_ response) ;;
          ret (entity_id w)
        else
          raise (HTTPException 400
            "Either doc_url or uploaded file content is required for ingestion.")) ;;
     if negb (Py.truthy content_id) then
       raise (HTTPException 500
         "Graphlit ingestion failed to return a content ID.")
     else ret content_id)
    (fun e =>
       match e with
       | LibError (GraphQLClientError errors text) =>
           raise (HTTPException 500
             ("Graphlit API error during ingestion: " ++ errors_or_str errors text))
       | _ =>
           raise (HTTPException 500
             ("Backend error during ingestion: " ++ str_exn e))
       end).

Definition get_content_markdown_from_graphlit (content_id : string) : M string :=
  try_except
    (content_details <- call (EvGetContent content_id)
                             (get_content env content_id) ;;
     match content_details with
     | Some {| content := Some {| markdown := Some md |} |} =>
         if Py.truthy md then ret md
         else raise (HTTPException 500
           ("Failed to retrieve markdown content for ID " ++ content_id ++
            " from Graphlit. Content might not be processed yet, or is empty."))
     | _ =>
         raise (HTTPException 500
           ("Failed to retrieve markdown content for ID " ++ content_id ++
            " from Graphlit. Content might not be processed yet, or is empty."))
     end)
    (fun e =>
       match e with
       | LibError (GraphQLClientError errors text) =>
           raise (HTTPException 500
             ("Graphlit API error retrieving content: " ++ errors_or_str errors text))
       | _ =>
           raise (HTTPException 500
             ("Backend error retrieving content: " ++ str_exn e))
       end).

(** The prompt of [generate_sdk_usage_example]. *)
Definition usage_prompt (sdk_code sdk_name base_url : string) : string :=
"
        Generate a standalone, functional TypeScript usage example for the following SDK code, named '" ++ sdk_name ++ "' with base URL '" ++ base_url ++ "'.

        The example must:
        - Instantiate the SDK class (`const sdk = new " ++ sdk_name ++ "('" ++ base_url ++ "');`).
        - Demonstrate at least one GET method call (e.g., fetching all items or a specific item).
        - Demonstrate at least one POST/PUT/DELETE method call if applicable (creating/updating/deleting resources). If no such method is apparent, omit this part.
        - Use `async/await` for all asynchronous operations.
        - Implement basic `try...catch` for error handling around API calls.
        - Log results to the console (`console.log`).

        Output ONLY the TypeScript code, with no additional text, explanations, or markdown fences. The code should be ready to run in a typical Node.js or browser environment (assuming `fetch` API is available).

        SDK Code:
        ```typescript
        " ++ sdk_code ++ "
        ```

        Generate a standalone, functional TypeScript code snippet that clearly demonstrates the usage of **each distinct method** within this SDK class.

        For each method or a small logical group of interdependent methods:
        - Call the method with appropriate dummy/example arguments.
        - Wrap the method call in its **own, independent `try...catch` block** to demonstrate isolated error handling.
        - Log the successful result (or error) to the console using `console.log`.
        - Ensure all calls use `async/await` syntax.
        - Do NOT include the SDK class definition itself in your output; **only** the usage demonstration.
        - The code should be contained within a single `main` async function that is then called, similar to:
          ```typescript
          async function main() {
            const sdk = new " ++ sdk_name ++ "('" ++ base_url ++ "');
            // Your method demonstrations here
          }
          main();
          ```
        - Do NOT include any introductory or concluding conversational text, explanations, or markdown fences outside of the TypeScript code itself. The output must be pure, executable TypeScript.
        ".

Definition usage_placeholder : string := "Error generating usage example.".

Definition generate_sdk_usage_example
    (sdk_code sdk_name base_url : string) : M string :=
  try_except
    (response <- call (EvUsageRun (usage_prompt sdk_code sdk_name base_url))
                      (usage_arun env (usage_prompt sdk_code sdk_name base_url)) ;;
     text <- getattr "strip" (run_content response) ;;
     ret (Py.strip text))
    (fun _ => ret usage_placeholder).

(** The prompt handed to the orchestration team. *)
Definition team_initial_input
    (raw_doc_content sdk_name version base_url : string) : string :=
"
        Below is the API documentation content and the desired SDK configuration.
        Your task is to first extract the API schema from this documentation, and then generate a TypeScript SDK.

        --- API Documentation Content ---
        " ++ raw_doc_content ++ "
        -------------------------------

        --- SDK Configuration ---
        SDK Name: " ++ sdk_name ++ "
        SDK Version: " ++ version ++ "
        API Base URL: " ++ base_url ++ "
        -------------------------

        Please begin by extracting the API schema.
        ".

(** The extension chain used when [mimetypes] has no answer. *)
Definition mime_from_extension (file_name_original : string) : string :=
  if Py.endswith (Py.lower file_name_original) ".md" then "text/markdown"
  else if Py.endswith (Py.lower file_name_original) ".txt" then "text/plain"
  else if Py.endswith (Py.lower file_name_original) ".pdf" then "application/pdf"
  else if Py.endswith (Py.lower file_name_original) ".docx" then
    "application/vnd.openxmlformats-officedocument.wordprocessingml.document"
  else if Py.endswith (Py.lower file_name_original) ".pptx" then
    "application/vnd.openxmlformats-officedocument.presentationml.presentation"
  else "application/octet-stream".

(** The MIME inference block of [generate_sdk_endpoint]: the value of
    [determined_mime_type] after it, from [doc_file.content_type] and
    [doc_file.filename]. *)
Definition determine_mime_type
    (declared : option string) (file_name_original : option string) : M string :=
  let generic_or_missing :=
    match declared with
    | Some t => String.eqb t "application/octet-stream" || negb (Py.truthy t)
    | None => true
    end in
  if generic_or_missing then
    match file_name_original with
    | None => raise TypeError_fspath
    | Some name =>
        if Py.truthy_opt (guess_type lib name)
        then ret (match guess_type lib name with Some g => g | None => "" end)
        else ret (mime_from_extension name)
    end
  else ret (match declared with Some t => t | None => "" end).

Definition generation_keywords : list string :=
  ["interface"; "class"; "async"; "fetch"].

Definition quality_failure_detail : string :=
  "SDK generation failed or returned invalid TypeScript code. This might indicate issues with the API documentation or the LLM's understanding/generation capabilities. Check backend logs for more details.".

Definition validation_failure_detail : string :=
  "No API documentation provided. Please provide either a URL for the documentation or upload a file.".

Definition success_message (sdk_name : string) : string :=
  "TypeScript SDK generated successfully! SDK Name: " ++ sdk_name.

(** Step 1 of the handler: the value of [content_id] after the ingestion
    branches. *)
Definition ingest_step (req : SdkRequest) : M (option string) :=
  if Py.truthy_opt (doc_url req) then
    content_id <- ingest_document_with_graphlit
                    (Some (sdk_name req)) (doc_url req) None None ;;
    ret (Some content_id)
  else
    match doc_file req with
    | Some f =>
        file_content <- read_upload f ;;
        determined_mime_type <- determine_mime_type (content_type f) (filename f) ;;
        content_id <- ingest_document_with_graphlit
                        (filename f) None (Some file_content)
                        (Some determined_mime_type) ;;
        ret (Some content_id)
    | None => ret None
    end.

(** Steps 1 and 2 of the handler: the text of [raw_doc_content]. *)
Definition retrieve_documentation (req : SdkRequest) : M string :=
  content_id <- ingest_step req ;;
  if negb (Py.truthy_opt content_id) then
    raise (HTTPException 500
      "Graphlit ingestion failed to return a content ID. This may indicate an issue with Graphlit service or provided credentials/document.")
  else
    raw_doc_content <- get_content_markdown_from_graphlit
                         (match content_id with Some c => c | None => "" end) ;;
    if negb (Py.truthy (Py.strip raw_doc_content)) then
      raise (HTTPException 500
        "Retrieved empty or invalid documentation content from Graphlit. Ensure the document contains readable text.")
    else ret raw_doc_content.

(** [not generated_sdk_code or not any(kw in generated_sdk_code for kw in ...)]
    on a [str]. *)
Definition implausible (generated_sdk_code : string) : bool :=
  negb (Py.truthy generated_sdk_code)
  || negb (Py.any (fun kw => Py.contains kw generated_sdk_code)
                  generation_keywords).

(** The team run and the keyword check: the value of [generated_sdk_code]
    when the check lets it through. *)
Definition run_team (req : SdkRequest) (raw_doc_content : string) : M string :=
  team_result <- call (EvTeamRun (team_initial_input raw_doc_content
                                    (sdk_name req) (version req) (base_url req)))
                      (team_arun env (team_initial_input raw_doc_content
                                    (sdk_name req) (version req) (base_url req))) ;;
  match run_content team_result with
  | None =>
      (* [generated_sdk_code[:1000]] in the logged text *)
      raise TypeError_not_subscriptable
  | Some generated_sdk_code =>
      if implausible generated_sdk_code
      then raise (HTTPException 500 quality_failure_detail)
      else ret generated_sdk_code
  end.

Definition generate_code (req : SdkRequest) : M string :=
  raw_doc_content <- retrieve_documentation req ;;
  run_team req raw_doc_content.

(** The [except] clauses that close the handler's [try]. *)
Definition endpoint_handler {A} (e : exn) : M A :=
  match e with
  | HTTPException status detail => raise (HTTPException status detail)
  | _ =>
      raise (HTTPException 500
        ("An unexpected internal server error occurred: " ++ str_exn e ++
         ". Please check backend logs for more details."))
  end.

(** [not doc_url and not doc_file]. *)
Definition no_source (req : SdkRequest) : bool :=
  negb (Py.truthy_opt (doc_url req))
  && negb (match doc_file req with Some _ => true | None => false end).

Definition generate_sdk_endpoint (req : SdkRequest) : M GenerateSdkResponse :=
  if no_source req
  then raise (HTTPException 400 validation_failure_detail)
  else
    _ <- get_graphlit_client ;;
    try_except
      (generated_sdk_code <- generate_code req ;;
       usage_example <- generate_sdk_usage_example
                          generated_sdk_code (sdk_name req) (base_url req) ;;
       ret {| sdk_code := generated_sdk_code;
              sdk_usage_example := usage_example;
              message := success_message (sdk_name req) |})
      endpoint_handler.

End Pipeline.

Arguments Env S : clear implicits.
Arguments St S : clear implicits.
Arguments M S A : clear implicits.

(** A request handled on its own: the trace starts empty. *)
Definition run {S A} (m : M S A) (s : S) : result A * St S :=
  m {| svc := s; trace := [] |}.

(** ** Vocabulary of the properties *)

Section Vocabulary.

Context {S : Type}.

(** [emits P m]: whatever [m] does, every event it adds to the trace
    satisfies [P]. *)
Definition emits {A} (P : Event -> bool) (m : M S A) : Prop :=
  forall st, exists evs,
    trace (snd (m st)) = (trace st ++ evs)%list /\ forallb P evs = true.

(** [raises_only Q m]: every exception that leaves [m] satisfies [Q]. *)
Definition raises_only {A} (Q : exn -> Prop) (m : M S A) : Prop :=
  forall st e, fst (m st) = Raise e -> Q e.

(** Exceptions that the handler turns into status 500. *)
Definition internal_error (e : exn) : Prop :=
  match e with
  | HTTPException status _ => status = 500%Z
  | LibError _ => True
  end.

(** The reply of the usage agent as the stage returns it. *)
Definition usage_text (reply : outcome RunResponse) : string :=
  match reply with
  | Returns {| run_content := Some text |} => Py.strip text
  | _ => usage_placeholder
  end.

(** The usage agent threw, or its reply has no content. *)
Definition usage_fails (reply : outcome RunResponse) : Prop :=
  match reply with
  | Returns {| run_content := Some _ |} => False
  | _ => True
  end.

Definition client_error_detail : string :=
  "Graphlit client not initialized. Check backend logs for errors related to GRAPHLIT_ environment variables.".

(** The environment [e] with another usage agent. *)
Definition with_usage (e : Env S) (u : string -> S -> outcome RunResponse * S)
    : Env S :=
  {| client_initialized := client_initialized e;
     query_workflows := query_workflows e;
     create_workflow := create_workflow e;
     ingest_uri := ingest_uri e;
     ingest_encoded_file := ingest_encoded_file e;
     get_content := get_content e;
     team_arun := team_arun e;
     usage_arun := u |}.

(** The events of ingestion: provisioning, and one of the two ingestion
    routes according to [url]. *)
Definition ingestion_event (url : bool) (ev : Event) : bool :=
  match ev with
  | EvQueryWorkflows _ | EvCreateWorkflow _ => true
  | EvIngestUri _ _ => url
  | EvReadUpload _ | EvIngestEncodedFile _ _ _ _ => negb url
  | _ => false
  end.


(** The declared content type is missing or generic. *)
Definition generic (declared : option string) : Prop :=
  declared = None \/ declared = Some "" \/
  declared = Some "application/octet-stream".

(** The extension chain read as a table, first match first. *)
Definition extension_table : list (string * string) :=
  [ (".md", "text/markdown");
    (".txt", "text/plain");
    (".pdf", "application/pdf");
    (".docx", "application/vnd.openxmlformats-officedocument.wordprocessingml.document");
    (".pptx", "application/vnd.openxmlformats-officedocument.presentationml.presentation") ].

Fixpoint first_match (name : string) (table : list (string * string)) : string :=
  match table with
  | [] => "application/octet-stream"
  | (extension, type) :: rest =>
      if Py.endswith name extension then type else first_match name rest
  end.

(** A lookup of the fixed name in state [s] returns, and its first result is
    the workflow [i]. *)
Definition finds (env : Env S) (s : S) (i : string) : Prop :=
  exists r s' rest,
    query_workflows env workflow_name s = (Returns r, s') /\
    found_workflows r = Some {| entity_id := i |} :: rest.

(** A lookup that found a workflow finds the same one when repeated. *)
Definition lookup_stable (env : Env S) : Prop :=
  forall s r s' i rest,
    query_workflows env workflow_name s = (Returns r, s') ->
    found_workflows r = Some {| entity_id := i |} :: rest ->
    finds env s' i.

(** A workflow created after a lookup found none is found afterwards. *)
Definition created_is_found (env : Env S) : Prop :=
  forall s r s0 i s1,
    query_workflows env workflow_name s = (Returns r, s0) ->
    found_workflows r = [] ->
    create_workflow env workflow_input s0 =
      (Returns {| create_workflow_ := Some {| entity_id := i |} |}, s1) ->
    finds env s1 i.

Definition adapter_validation_detail : string :=
  "Either doc_url or uploaded file content is required for ingestion.".

(** The retrieved markdown is absent, empty or whitespace-only. *)
Definition unreadable (response : option GetContent) : bool :=
  match response with
  | Some {| content := Some {| markdown := Some md |} |} => Py.blank md
  | _ => true
  end.

(** The request names a source the adapter can ingest: a non-empty URL, or
    an upload with at least one byte. *)
Definition usable_source (req : SdkRequest) : bool :=
  Py.truthy_opt (doc_url req)
  || match doc_file req with
     | Some f => truthy_bytes (Some (file_data f))
     | None => false
     end.

Definition is_provisioning (ev : Event) : bool :=
  match ev with
  | EvQueryWorkflows _ | EvCreateWorkflow _ => true
  | _ => false
  end.


End Vocabulary.

(** ** Start-up and the remaining vocabulary *)

(** The object built by [Graphlit(...)]: its [client] attribute. *)
Record Graphlit : Type := { client : option unit }.

Definition RuntimeError (text : string) : exn := LibError (OtherError text).

(** [startup_event]: [getenv] is [os.getenv], [new_Graphlit] the constructor
    called with the three settings; the state is the global
    [graphlit_client_instance]. *)
Definition startup_event
    (getenv : string -> option string)
    (new_Graphlit : option string -> option string -> option string ->
                    outcome Graphlit)
    (graphlit_client_instance : option Graphlit)
    : result unit * option Graphlit :=
  match new_Graphlit (getenv "GRAPHLIT_ORGANIZATION_ID")
                     (getenv "GRAPHLIT_ENVIRONMENT_ID")
                     (getenv "GRAPHLIT_JWT_SECRET") with
  | Returns instance => (Ok tt, Some instance)
  | Throws _ =>
      (Raise (RuntimeError "Failed to initialize Graphlit client. Exiting."),
       graphlit_client_instance)
  end.

(** The test of [get_graphlit_client] on the global: the instance and its
    [client] are both set. *)
Definition client_ready (graphlit_client_instance : option Graphlit) : bool :=
  match graphlit_client_instance with
  | Some {| client := Some _ |} => true
  | _ => false
  end.

(** The collaborators [e] seen by a process whose global is [instance]. *)
Definition serving {S} (instance : option Graphlit) (e : Env S) : Env S :=
  {| client_initialized := client_ready instance;
     query_workflows := query_workflows e;
     create_workflow := create_workflow e;
     ingest_uri := ingest_uri e;
     ingest_encoded_file := ingest_encoded_file e;
     get_content := get_content e;
     team_arun := team_arun e;
     usage_arun := usage_arun e |}.

(** Invocations of the usage agent. *)
Definition is_usage (ev : Event) : bool :=
  match ev with EvUsageRun _ => true | _ => false end.

(** The place of a call in a request: reading the upload, looking the
    workflow up, creating it, ingesting, retrieving, running the team,
    running the usage agent. *)
Definition stage (ev : Event) : nat :=
  match ev with
  | EvReadUpload _ => 0
  | EvQueryWorkflows _ => 1
  | EvCreateWorkflow _ => 2
  | EvIngestUri _ _ | EvIngestEncodedFile _ _ _ _ => 3
  | EvGetContent _ => 4
  | EvTeamRun _ => 5
  | EvUsageRun _ => 6
  end.

(** The stages of [evs] increase strictly and start at [lo] or later. *)
Fixpoint ascending (lo : nat) (evs : list Event) : bool :=
  match evs with
  | [] => true
  | ev :: rest => (lo <=? stage ev)%nat && ascending (S (stage ev)) rest
  end.

(** [steps lo hi m]: the events [m] adds have strictly increasing stages,
    all of them in the range from [lo] up to, not including, [hi]. *)
Definition steps {S A} (lo hi : nat) (m : M S A) : Prop :=
  forall st, exists evs,
    trace (snd (m st)) = (trace st ++ evs)%list /\
    ascending lo evs = true /\
    forallb (fun ev => (stage ev <? hi)%nat) evs = true.



(** The detail of the handler's own check of [content_id]. *)
Definition missing_content_id_detail : string :=
  "Graphlit ingestion failed to return a content ID. This may indicate an issue with Graphlit service or provided credentials/document.".

(** Exceptions other than the one of the handler's check of [content_id]. *)
Definition not_missing_content_id (e : exn) : Prop :=
  forall status, e <> HTTPException status missing_content_id_detail.

(** The detail the ingestion adapter gives to what the service threw. *)
Definition ingestion_error_detail (e : lib_error) : string :=
  match e with
  | GraphQLClientError (Some es) _ => "Graphlit API error during ingestion: " ++ es
  | GraphQLClientError None text => "Graphlit API error during ingestion: " ++ text
  | OtherError text => "Backend error during ingestion: " ++ text
  end.

(** The detail the retrieval adapter gives to what the service threw. *)
Definition retrieval_error_detail (e : lib_error) : string :=
  match e with
  | GraphQLClientError (Some es) _ => "Graphlit API error retrieving content: " ++ es
  | GraphQLClientError None text => "Graphlit API error retrieving content: " ++ text
  | OtherError text => "Backend error retrieving content: " ++ text
  end.

(** ** A concrete host and ingestion service

    An in-memory Graphlit store that answers truthfully, with scripted
    document text and model replies; used to run the pipeline on concrete
    requests. *)

Module Demo.

Definition digits (n : nat) : string := NilZero.string_of_uint (Nat.to_uint n).

Definition base64_alphabet : string :=
  "ABCDEFGHIJKLMNOPQRSTUVWXYZabcdefghijklmnopqrstuvwxyz0123456789+/".

Definition sextet (n : N) : string :=
  match String.get (N.to_nat (N.modulo n 64)) base64_alphabet with
  | Some c => String c EmptyString
  | None => EmptyString
  end.

(** RFC 4648 base64 with padding. *)
Fixpoint b64 (data : bytes) : string :=
  match data with
  | [] => ""
  | [a] =>
      let n := (Byte.to_N a * 16)%N in
      sextet (n / 64) ++ sextet n ++ "=="
  | [a; b] =>
      let n := ((Byte.to_N a * 256 + Byte.to_N b) * 4)%N in
      sextet (n / 4096) ++ sextet (n / 64) ++ sextet n ++ "="
  | a :: b :: c :: rest =>
      let n := ((Byte.to_N a * 256 + Byte.to_N b) * 256 + Byte.to_N c)%N in
      sextet (n / 262144) ++ sextet (n / 4096) ++ sextet (n / 64) ++ sextet n
      ++ b64 rest
  end.

(** A [mimetypes] registry that knows the extensions of CPython's built-in
    table used here, and not [.md]. *)
Definition sample_guess_type (name : string) : option string :=
  if Py.endswith (Py.lower name) ".pdf" then Some "application/pdf"
  else if Py.endswith (Py.lower name) ".txt" then Some "text/plain"
  else if Py.endswith (Py.lower name) ".json" then Some "application/json"
  else None.

Definition lib : Library :=
  {| guess_type := sample_guess_type;
     b64encode := b64;
     http_exception_str := fun status detail =>
       digits (Z.to_nat status) ++ ": " ++ detail |}.

(** The workflows of the service: name and identifier, oldest first. *)
Definition Store : Type := list (string * string).

Definition named (name : string) (store : Store) : Store :=
  filter (fun w => String.eqb (fst w) name) store.

Definition lookup (name : string) (store : Store) : QueryWorkflows :=
  {| workflows :=
       Some {| results :=
         Some (map (fun w => Some {| entity_id := snd w |}) (named name store)) |} |}.

Definition fresh_id (store : Store) : string := "wf-" ++ digits (length store).

Definition env (ready : bool) (doc_markdown : option string)
    (team_reply : outcome RunResponse) (usage_reply : outcome RunResponse)
    : Env Store :=
  {| client_initialized := ready;
     query_workflows := fun name store => (Returns (Some (lookup name store)), store);
     create_workflow := fun input store =>
       (Returns {| create_workflow_ := Some {| entity_id := fresh_id store |} |},
        (store ++ [(wi_name input, fresh_id store)])%list);
     ingest_uri := fun uri workflow store =>
       (Returns {| ingest_uri_ := Some {| entity_id := "content-of-" ++ uri |} |}, store);
     ingest_encoded_file := fun name data mime workflow store =>
       (Returns {| ingest_encoded_file_ := Some {| entity_id := "content-of-upload" |} |},
        store);
     get_content := fun content_id store =>
       (Returns (Some {| content := Some {| markdown := doc_markdown |} |}), store);
     team_arun := fun prompt store => (team_reply, store);
     usage_arun := fun prompt store => (usage_reply, store) |}.

Definition reply (text : string) : outcome RunResponse :=
  Returns {| run_content := Some text |}.

(** The end-to-end scenario: a URL to a readable document. *)
Definition readme_request : SdkRequest :=
  {| sdk_name := "MyApiSdk"; version := "1.0.0";
     base_url := "https://api.example.com/v1";
     doc_url := Some "https://example.com/readme"; doc_file := None |}.

Definition upload (name : string) (declared : string) (data : bytes) : SdkRequest :=
  {| sdk_name := "MyApiSdk"; version := "1.0.0";
     base_url := "https://api.example.com/v1";
     doc_url := None;
     doc_file := Some {| filename := Some name; content_type := Some declared;
                         file_data := data |} |}.

Definition empty_request : SdkRequest :=
  {| sdk_name := "MyApiSdk"; version := "1.0.0";
     base_url := "https://api.example.com/v1";
     doc_url := None; doc_file := None |}.

Definition sdk_text : string := "export class MyApiSdk { async ping() {} }".
Definition doc_text : string := "# API
GET /ping".

End Demo.

(** ** Concrete runs: environments and requests *)

Module Runs.
Import Demo.

Definition initial : St Store := {| svc := []; trace := [] |}.

(** Everything works. *)
Definition healthy : Env Store :=
  env true (Some doc_text) (reply sdk_text) (reply "  main();  ").

(** The usage agent is down. *)
Definition usage_down : Env Store :=
  env true (Some doc_text) (reply sdk_text) (Throws (OtherError "model unavailable")).

(** The team answers with prose. *)
Definition prose_team : Env Store :=
  env true (Some doc_text) (reply "Sorry, I cannot help with that.") (reply "main();").

(** The team answers without content. *)
Definition silent_team : Env Store :=
  env true (Some doc_text) (Returns {| run_content := None |}) (reply "main();").

(** The document has only whitespace. *)
Definition blank_document : Env Store :=
  env true (Some "   
  ") (reply sdk_text) (reply "main();").


Definition healthy_response : GenerateSdkResponse :=
  {| sdk_code := sdk_text;
     sdk_usage_example := "main();";
     message := "TypeScript SDK generated successfully! SDK Name: MyApiSdk" |}.

End Runs.

Import Runs.

(** ** Concrete runs with faults *)

Module Faults.
Import Demo.

(** The lookup of workflows throws [err]. *)
Definition lookup_down (err : lib_error) : Env Store :=
  {| client_initialized := true;
     query_workflows := fun _ store => (Throws err, store);
     create_workflow := create_workflow healthy;
     ingest_uri := ingest_uri healthy;
     ingest_encoded_file := ingest_encoded_file healthy;
     get_content := get_content healthy;
     team_arun := team_arun healthy;
     usage_arun := usage_arun healthy |}.

(** The retrieval of content throws [err]. *)
Definition retrieval_down (err : lib_error) : Env Store :=
  {| client_initialized := true;
     query_workflows := query_workflows healthy;
     create_workflow := create_workflow healthy;
     ingest_uri := ingest_uri healthy;
     ingest_encoded_file := ingest_encoded_file healthy;
     get_content := fun _ store => (Throws err, store);
     team_arun := team_arun healthy;
     usage_arun := usage_arun healthy |}.

(** The ingestion of a URL throws [err]. *)
Definition ingestion_down (err : lib_error) : Env Store :=
  {| client_initialized := true;
     query_workflows := query_workflows healthy;
     create_workflow := create_workflow healthy;
     ingest_uri := fun _ _ store => (Throws err, store);
     ingest_encoded_file := ingest_encoded_file healthy;
     get_content := get_content healthy;
     team_arun := team_arun healthy;
     usage_arun := usage_arun healthy |}.

(** The team run throws [err]. *)
Definition team_down (err : lib_error) : Env Store :=
  env true (Some doc_text) (Throws err) (reply "main();").

(** A service that already has two workflows of the fixed name. *)
Definition two_workflows : St Store :=
  {| svc := [(workflow_name, "wf-old"); ("Other", "wf-x"); (workflow_name, "wf-new")];
     trace := [] |}.

Definition markdown_upload : SdkRequest :=
  upload "spec.md" "application/octet-stream" [Byte.x23; Byte.x20; Byte.x41].

(** An upload without a file name and without a content type. *)
Definition nameless_upload : SdkRequest :=
  {| sdk_name := "MyApiSdk"; version := "1.0.0";
     base_url := "https://api.example.com/v1";
     doc_url := None;
     doc_file := Some {| filename := None; content_type := None;
                         file_data := [Byte.x23; Byte.x20; Byte.x41] |} |}.

(** No setting is defined. *)
Definition no_settings (name : string) : option string := None.

(** A constructor that insists on the organization identifier. *)
Definition strict_constructor (organization_id environment_id jwt_secret : option string)
    : outcome Graphlit :=
  match organization_id with
  | None => Throws (OtherError "organization_id is required")
  | Some _ => Returns {| client := Some tt |}
  end.

Definition readme_content_id : string := "content-of-https://example.com/readme".

End Faults.

Import Faults.

(** ** Facts about the string operations *)

Lemma prefix_iff (p s : string) :
  String.prefix p s = true <-> exists rest, s = p ++ rest.
Proof.
  revert s; induction p as [|c p IH]; intros s.
  - split; [intros _; exists s; reflexivity | intros _; now destruct s].
  - destruct s as [|d s]; simpl.
    + split; [discriminate | intros [rest H]; discriminate].
    + destruct (Ascii.ascii_dec c d) as [->|Hne].
      * rewrite IH. split; intros [rest H]; exists rest.
        -- now rewrite H.
        -- now inversion H.
      * split; [discriminate | intros [rest H]; inversion H; congruence].
Qed.

Lemma contains_eq (kw s : string) :
  Py.contains kw s =
  if String.prefix kw s then true
  else match s with
       | EmptyString => false
       | String _ s' => Py.contains kw s'
       end.
Proof. destruct s; reflexivity. Qed.

(** [contains] decides the substring relation. *)
Lemma contains_iff (kw s : string) :
  Py.contains kw s = true <-> exists before after, s = before ++ kw ++ after.
Proof.
  induction s as [|c s IH]; rewrite contains_eq.
  - destruct (String.prefix kw "") eqn:E.
    + split; [intros _ | reflexivity].
      apply prefix_iff in E. destruct E as [rest E]. now exists "", rest.
    + split; [discriminate|]. intros [b [a H]].
      destruct b; [|discriminate]. simpl in H.
      assert (String.prefix kw "" = true) by (apply prefix_iff; now exists a).
      congruence.
  - destruct (String.prefix kw (String c s)) eqn:E.
    + split; [intros _ | reflexivity].
      apply prefix_iff in E. destruct E as [rest E]. now exists "", rest.
    + rewrite IH. split.
      * intros [b [a H]]. exists (String c b), a. simpl. now rewrite H.
      * intros [b [a H]]. destruct b as [|d b]; simpl in H.
        -- assert (String.prefix kw (String c s) = true)
             by (apply prefix_iff; now exists a).
           congruence.
        -- inversion H. now exists b, a.
Qed.

Lemma endswith_eq (s suffix : string) :
  Py.endswith s suffix =
  if String.eqb s suffix then true
  else match s with
       | EmptyString => false
       | String _ s' => Py.endswith s' suffix
       end.
Proof. destruct s; reflexivity. Qed.

(** [endswith] decides the suffix relation. *)
Lemma endswith_iff (s suffix : string) :
  Py.endswith s suffix = true <-> exists before, s = before ++ suffix.
Proof.
  induction s as [|c s IH]; rewrite endswith_eq.
  - destruct (String.eqb_spec "" suffix) as [<-|Hne].
    + split; [now exists "" | reflexivity].
    + split; [discriminate|]. intros [b H]. destruct b; simpl in H; congruence.
  - destruct (String.eqb_spec (String c s) suffix) as [<-|Hne].
    + split; [now exists "" | reflexivity].
    + rewrite IH. split.
      * intros [b H]. exists (String c b). simpl. now rewrite H.
      * intros [b H]. destruct b as [|d b]; simpl in H; [congruence|].
        inversion H. now exists b.
Qed.

Lemma truthy_false_iff (s : string) : Py.truthy s = false <-> s = "".
Proof.
  unfold Py.truthy. destruct (String.eqb_spec s ""); simpl; split; congruence.
Qed.

Lemma truthy_true_iff (s : string) : Py.truthy s = true <-> s <> "".
Proof.
  unfold Py.truthy. destruct (String.eqb_spec s ""); simpl; split; congruence.
Qed.

Lemma lstrip_blank (s : string) : Py.blank s = true -> Py.lstrip s = "".
Proof.
  induction s as [|c s IH]; simpl; [reflexivity|].
  destruct (Py.isspace c); simpl; [exact IH | discriminate].
Qed.

Lemma rstrip_empty_blank (s : string) : Py.rstrip s = "" -> Py.blank s = true.
Proof.
  induction s as [|c s IH]; simpl; [reflexivity|].
  destruct (Py.rstrip s); [|discriminate].
  destruct (Py.isspace c); [intros _; now apply IH | discriminate].
Qed.

Lemma lstrip_blank_inv (s : string) :
  Py.blank (Py.lstrip s) = true -> Py.blank s = true.
Proof.
  induction s as [|c s IH]; simpl; [reflexivity|].
  destruct (Py.isspace c) eqn:E; simpl; [exact IH | now rewrite E].
Qed.

(** [not s.strip()] holds exactly of the whitespace-only strings. *)
Lemma strip_falsy_iff_blank (s : string) :
  Py.truthy (Py.strip s) = false <-> Py.blank s = true.
Proof.
  rewrite truthy_false_iff. unfold Py.strip. split.
  - intros H. apply lstrip_blank_inv. now apply rstrip_empty_blank.
  - intros H. now rewrite (lstrip_blank s H).
Qed.

(** ** Reasoning about computations *)

Section Properties.

Context {S : Type}.
Variable lib : Library.
Variable env : Env S.

Lemma emits_ret {A} P (a : A) : emits P (@ret S A a).
Proof. intros st. exists []. simpl. now rewrite app_nil_r. Qed.

Lemma emits_raise {A} P e : emits P (@raise S A e).
Proof. intros st. exists []. simpl. now rewrite app_nil_r. Qed.

Lemma emits_bind {A B} P (m : M S A) (k : A -> M S B) :
  emits P m -> (forall a, emits P (k a)) -> emits P (bind m k).
Proof.
  intros Hm Hk st. unfold bind.
  destruct (Hm st) as [e1 [E1 F1]].
  destruct (m st) as [[a|e] st1]; simpl in *.
  - destruct (Hk a st1) as [e2 [E2 F2]]. exists (e1 ++ e2)%list.
    now rewrite E2, E1, app_assoc, forallb_app, F1, F2.
  - now exists e1.
Qed.

Lemma emits_try_except {A} P (m : M S A) (h : exn -> M S A) :
  emits P m -> (forall e, emits P (h e)) -> emits P (try_except m h).
Proof.
  intros Hm Hh st. unfold try_except.
  destruct (Hm st) as [e1 [E1 F1]].
  destruct (m st) as [[a|e] st1]; simpl in *.
  - now exists e1.
  - destruct (Hh e st1) as [e2 [E2 F2]]. exists (e1 ++ e2)%list.
    now rewrite E2, E1, app_assoc, forallb_app, F1, F2.
Qed.

Lemma emits_call {A} P ev (op : S -> outcome A * S) :
  P ev = true -> emits P (call ev op).
Proof.
  intros HP st. unfold call. exists [ev].
  destruct (op (svc st)) as [[a|e] s']; simpl; now rewrite HP.
Qed.

Lemma emits_getattr {A} P attr (x : option A) : emits P (@getattr S A attr x).
Proof. destruct x; [apply emits_ret | apply emits_raise]. Qed.

Lemma emits_read_upload P f :
  P (EvReadUpload (filename f)) = true -> emits P (@read_upload S f).
Proof. intros HP st. exists [EvReadUpload (filename f)]. simpl. now rewrite HP. Qed.

Lemma emits_weaken {A} (P Q : Event -> bool) (m : M S A) :
  (forall ev, P ev = true -> Q ev = true) -> emits P m -> emits Q m.
Proof.
  intros HPQ Hm st. destruct (Hm st) as [evs [E F]]. exists evs. split; [exact E|].
  rewrite forallb_forall in *. auto.
Qed.

Lemma raises_ret {A} Q (a : A) : raises_only Q (@ret S A a).
Proof. intros st e H. discriminate. Qed.

Lemma raises_raise {A} (Q : exn -> Prop) e : Q e -> raises_only Q (@raise S A e).
Proof. intros HQ st e' H. simpl in H. now inversion H; subst. Qed.

Lemma raises_bind {A B} Q (m : M S A) (k : A -> M S B) :
  raises_only Q m -> (forall a, raises_only Q (k a)) -> raises_only Q (bind m k).
Proof.
  intros Hm Hk st e. unfold bind. specialize (Hm st).
  destruct (m st) as [[a|e'] st1]; simpl in *.
  - apply Hk.
  - intros H. inversion H; subst. now apply Hm.
Qed.

Lemma raises_try_except {A} Q (m : M S A) (h : exn -> M S A) :
  (forall e, raises_only Q (h e)) -> raises_only Q (try_except m h).
Proof.
  intros Hh st e. unfold try_except.
  destruct (m st) as [[a|e'] st1]; simpl; [discriminate | apply Hh].
Qed.

Lemma raises_call {A} (Q : exn -> Prop) ev (op : S -> outcome A * S) :
  (forall e, Q (LibError e)) -> raises_only Q (call ev op).
Proof.
  intros HQ st e. unfold call.
  destruct (op (svc st)) as [[a|e'] s']; simpl; [discriminate|].
  intros H. inversion H; subst. apply HQ.
Qed.

Lemma raises_getattr {A} (Q : exn -> Prop) attr (x : option A) :
  (forall e, Q (LibError e)) -> raises_only Q (@getattr S A attr x).
Proof.
  intros HQ. destruct x; [apply raises_ret | apply raises_raise, HQ].
Qed.

Lemma provision_raises :
  raises_only internal_error (get_or_create_graphlit_workflow lib env).
Proof.
  unfold get_or_create_graphlit_workflow.
  apply raises_try_except. intros [status detail|[[es|] text|text]];
    apply raises_raise; simpl; solve [reflexivity | exact I].
Qed.

Lemma ingest_raises name uri fc mime :
  raises_only internal_error
    (ingest_document_with_graphlit lib env name uri fc mime).
Proof.
  unfold ingest_document_with_graphlit.
  apply raises_bind; [apply provision_raises | intros wid].
  apply raises_try_except. intros [status detail|[errs text|text]];
    apply raises_raise; simpl; solve [reflexivity | exact I].
Qed.

Lemma get_markdown_raises cid :
  raises_only internal_error (get_content_markdown_from_graphlit lib env cid).
Proof.
  unfold get_content_markdown_from_graphlit.
  apply raises_try_except. intros [status detail|[errs text|text]];
    apply raises_raise; simpl; solve [reflexivity | exact I].
Qed.

Lemma determine_mime_raises declared name :
  raises_only internal_error (@determine_mime_type S lib declared name).
Proof.
  unfold determine_mime_type.
  destruct (match declared with Some _ => _ | None => _ end).
  - destruct name as [n|]; [|apply raises_raise; exact I].
    destruct (Py.truthy_opt _); apply raises_ret.
  - apply raises_ret.
Qed.

Lemma ingest_step_raises req :
  raises_only internal_error (ingest_step lib env req).
Proof.
  unfold ingest_step. destruct (Py.truthy_opt (doc_url req)).
  - apply raises_bind; [apply ingest_raises | intros; apply raises_ret].
  - destruct (doc_file req) as [f|]; [|apply raises_ret].
    apply raises_bind; [intros st e H; discriminate | intros data].
    apply raises_bind; [apply determine_mime_raises | intros mime].
    apply raises_bind; [apply ingest_raises | intros; apply raises_ret].
Qed.

Lemma retrieve_raises req :
  raises_only internal_error (retrieve_documentation lib env req).
Proof.
  unfold retrieve_documentation.
  apply raises_bind; [apply ingest_step_raises | intros cid].
  destruct (negb (Py.truthy_opt cid)); [apply raises_raise; reflexivity|].
  apply raises_bind; [apply get_markdown_raises | intros raw].
  destruct (negb _); [apply raises_raise; reflexivity | apply raises_ret].
Qed.

Lemma run_team_raises req raw :
  raises_only internal_error (run_team env req raw).
Proof.
  unfold run_team.
  apply raises_bind; [apply raises_call; intros; exact I | intros r].
  destruct (run_content r) as [code|]; [|apply raises_raise; exact I].
  destruct (implausible code); [apply raises_raise; reflexivity | apply raises_ret].
Qed.

Lemma generate_code_raises req :
  raises_only internal_error (generate_code lib env req).
Proof.
  unfold generate_code.
  apply raises_bind; [apply retrieve_raises | intros; apply run_team_raises].
Qed.

(** *** The shape of the handler *)

(** The usage stage always returns. *)
Lemma usage_example_returns code name url st :
  generate_sdk_usage_example env code name url st =
  (Ok (usage_text (fst (usage_arun env (usage_prompt code name url) (svc st)))),
   {| svc := snd (usage_arun env (usage_prompt code name url) (svc st));
      trace := (trace st ++ [EvUsageRun (usage_prompt code name url)])%list |}).
Proof.
  unfold generate_sdk_usage_example, try_except, bind, call.
  destruct (usage_arun env _ (svc st)) as [[[[text|]]|e] s']; reflexivity.
Qed.

Lemma endpoint_eq req st :
  generate_sdk_endpoint lib env req st =
  if no_source req then (Raise (HTTPException 400 validation_failure_detail), st)
  else if negb (client_initialized env)
  then (Raise (HTTPException 500 client_error_detail), st)
  else match generate_code lib env req st with
       | (Ok code, st1) =>
           let reply := usage_arun env
                          (usage_prompt code (sdk_name req) (base_url req)) (svc st1) in
           (Ok {| sdk_code := code;
                  sdk_usage_example := usage_text (fst reply);
                  message := success_message (sdk_name req) |},
            {| svc := snd reply;
               trace := (trace st1 ++ [EvUsageRun
                           (usage_prompt code (sdk_name req) (base_url req))])%list |})
       | (Raise e, st1) => endpoint_handler lib e st1
       end.
Proof.
  unfold generate_sdk_endpoint. destruct (no_source req); [reflexivity|].
  unfold get_graphlit_client, bind at 1.
  destruct (client_initialized env); simpl; [|reflexivity].
  unfold try_except, bind.
  destruct (generate_code lib env req st) as [[code|e] st1]; [|reflexivity].
  now rewrite usage_example_returns.
Qed.

Lemma endpoint_handler_raises {A} e st :
  exists status detail st',
    @endpoint_handler S lib A e st = (Raise (HTTPException status detail), st').
Proof.
  destruct e as [status detail|e]; simpl; unfold raise; eauto.
Qed.




(** *** Validation, plausibility and the success message *)

(** C2.  A request with neither [doc_url] nor [doc_file] is answered with the
    validation error, and the state is the one the handler started from: no
    call was made and the trace has no new event. *)
Theorem validation_precedes_network req st :
  doc_url req = None -> doc_file req = None ->
  generate_sdk_endpoint lib env req st =
  (Raise (HTTPException 400
     "No API documentation provided. Please provide either a URL for the documentation or upload a file."),
   st).
Proof.
  intros Hu Hf. rewrite endpoint_eq. unfold no_source. now rewrite Hu, Hf.
Qed.


(** C6.  The [message] of a successful response is the fixed sentence
    followed by the request's [sdk_name]; for [MyApiSdk] it is the sentence of
    the end-to-end scenario. *)
Theorem success_message_names_sdk req st r st' :
  generate_sdk_endpoint lib env req st = (Ok r, st') ->
  message r = "TypeScript SDK generated successfully! SDK Name: " ++ sdk_name req
  /\ (sdk_name req = "MyApiSdk" ->
      message r = "TypeScript SDK generated successfully! SDK Name: MyApiSdk").
Proof.
  rewrite endpoint_eq.
  destruct (no_source req); [discriminate|].
  destruct (negb (client_initialized env)); [discriminate|].
  destruct (generate_code lib env req st) as [[code|e] st1].
  - intros H. inversion H; subst; clear H. simpl. split; [reflexivity|].
    intros ->. reflexivity.
  - destruct (endpoint_handler_raises (A := GenerateSdkResponse) e st1)
      as [status [detail [st2 E]]].
    rewrite E. discriminate.
Qed.

(** *** Which calls each stage makes *)

Ltac emits_auto :=
  repeat first
    [ apply emits_ret
    | apply emits_raise
    | apply emits_getattr
    | apply emits_call; solve [reflexivity | assumption]
    | apply emits_read_upload; solve [reflexivity | assumption]
    | apply emits_bind; [|intros ?]
    | apply emits_try_except; [|intros ?]
    | match goal with
      | |- emits _ (match ?x with _ => _ end) => destruct x
      end ].

Lemma provision_emits url :
  emits (ingestion_event url) (get_or_create_graphlit_workflow lib env).
Proof. unfold get_or_create_graphlit_workflow. emits_auto. Qed.

Lemma ingest_emits name uri fc mime :
  emits (ingestion_event (Py.truthy_opt uri))
        (ingest_document_with_graphlit lib env name uri fc mime).
Proof.
  unfold ingest_document_with_graphlit.
  apply emits_bind; [apply provision_emits | intros wid].
  apply emits_try_except; [|intros e; emits_auto].
  destruct (Py.truthy_opt uri) eqn:E; emits_auto.
Qed.

Lemma determine_mime_emits P declared name :
  emits P (@determine_mime_type S lib declared name).
Proof. unfold determine_mime_type. emits_auto. Qed.

Lemma ingest_step_emits req :
  emits (ingestion_event (Py.truthy_opt (doc_url req))) (ingest_step lib env req).
Proof.
  unfold ingest_step. destruct (Py.truthy_opt (doc_url req)) eqn:E.
  - apply emits_bind; [|intros; apply emits_ret].
    rewrite <- E. apply ingest_emits.
  - destruct (doc_file req) as [f|]; [|apply emits_ret].
    apply emits_bind; [now apply emits_read_upload | intros data].
    apply emits_bind; [apply determine_mime_emits | intros mime].
    apply emits_bind; [|intros; apply emits_ret].
    apply (ingest_emits (filename f) None).
Qed.



(** *** MIME resolution *)

Lemma mime_from_extension_table name :
  mime_from_extension name = first_match (Py.lower name) extension_table.
Proof. reflexivity. Qed.

Lemma generic_test declared :
  generic declared ->
  match declared with
  | Some t => String.eqb t "application/octet-stream" || negb (Py.truthy t)
  | None => true
  end = true.
Proof. intros [->|[->| ->]]; reflexivity. Qed.

Lemma specific_test t :
  t <> "" -> t <> "application/octet-stream" ->
  String.eqb t "application/octet-stream" || negb (Py.truthy t) = false.
Proof.
  intros H1 H2. apply truthy_true_iff in H1. rewrite H1.
  now destruct (String.eqb_spec t "application/octet-stream").
Qed.

(** C4.  The MIME type of an upload is the declared content type when it is
    specific; otherwise the guess from the file name when there is one;
    otherwise the entry of the extension table, and the generic binary type
    when no entry matches.  For [spec.md] and [spec.pdf] declared as
    [application/octet-stream] it is [text/markdown] and [application/pdf],
    on a host whose [mimetypes] registry either has no entry for the
    extension or has the standard one. *)
Theorem mime_resolution_chain :
  (forall t name (st : St S),
     t <> "" -> t <> "application/octet-stream" ->
     determine_mime_type lib (Some t) name st = (Ok t, st))
  /\
  (forall declared name g (st : St S),
     generic declared -> guess_type lib name = Some g -> g <> "" ->
     determine_mime_type lib declared (Some name) st = (Ok g, st))
  /\
  (forall declared name (st : St S),
     generic declared ->
     guess_type lib name = None \/ guess_type lib name = Some "" ->
     determine_mime_type lib declared (Some name) st =
     (Ok (first_match (Py.lower name) extension_table), st))
  /\
  (forall name,
     (forall extension type, In (extension, type) extension_table ->
        ~ exists before, Py.lower name = before ++ extension) ->
     first_match (Py.lower name) extension_table = "application/octet-stream")
  /\
  (forall st : St S,
     guess_type lib "spec.md" = None \/
     guess_type lib "spec.md" = Some "text/markdown" ->
     determine_mime_type lib (Some "application/octet-stream") (Some "spec.md") st =
     (Ok "text/markdown", st))
  /\
  (forall st : St S,
     guess_type lib "spec.pdf" = None \/
     guess_type lib "spec.pdf" = Some "application/pdf" ->
     determine_mime_type lib (Some "application/octet-stream") (Some "spec.pdf") st =
     (Ok "application/pdf", st)).
Proof.
  repeat split.
  - intros t name st H1 H2. unfold determine_mime_type.
    now rewrite (specific_test t H1 H2).
  - intros declared name g st Hg Hguess Hne. unfold determine_mime_type.
    rewrite (generic_test declared Hg), Hguess. simpl.
    apply truthy_true_iff in Hne. now rewrite Hne.
  - intros declared name st Hg Hguess. unfold determine_mime_type.
    rewrite (generic_test declared Hg).
    destruct Hguess as [-> | ->]; reflexivity.
  - intros name Hnone. unfold extension_table, first_match.
    repeat match goal with
    | |- context [Py.endswith (Py.lower name) ?ext] =>
        let E := fresh "E" in
        destruct (Py.endswith (Py.lower name) ext) eqn:E;
        [ apply endswith_iff in E; exfalso;
          eapply Hnone; [|exact E]; simpl; tauto | ]
    end.
    reflexivity.
  - intros st [H | H]; unfold determine_mime_type; simpl; rewrite H; reflexivity.
  - intros st [H | H]; unfold determine_mime_type; simpl; rewrite H; reflexivity.
Qed.

(** *** Workflow provisioning *)

Lemma provision_after_finds s i tr :
  finds env s i ->
  exists s',
    get_or_create_graphlit_workflow lib env {| svc := s; trace := tr |} =
    (Ok i, {| svc := s'; trace := (tr ++ [EvQueryWorkflows workflow_name])%list |}).
Proof.
  intros [r [s' [rest [Hq Hf]]]]. exists s'.
  unfold get_or_create_graphlit_workflow, try_except, bind, call. simpl.
  rewrite Hq. simpl. now rewrite Hf.
Qed.

Lemma provision_ok_finds st i st1 :
  lookup_stable env -> created_is_found env ->
  get_or_create_graphlit_workflow lib env st = (Ok i, st1) ->
  finds env (svc st1) i.
Proof.
  intros Hstable Hcreated.
  unfold get_or_create_graphlit_workflow, try_except, bind, call.
  destruct (query_workflows env workflow_name (svc st)) as [[r|e] s0] eqn:Hq.
  - destruct (found_workflows r) as [|[[i0]|] rest] eqn:Hf; simpl.
    + destruct (create_workflow env workflow_input s0) as [[[[[i1]|]]|e] s1] eqn:Hc;
        simpl.
      * intros H. inversion H; subst; clear H. simpl. eapply Hcreated; eauto.
      * intros H. discriminate H.
      * destruct e as [[es|] text|text]; intros H; discriminate H.
    + intros H. inversion H; subst; clear H. simpl. eapply Hstable; eauto.
    + intros H. discriminate H.
  - simpl. destruct e as [[es|] text|text]; intros H; discriminate H.
Qed.

(** C5.  On a service whose lookups are stable and show what was created, a
    second call of the provisioner, made in the state the first one left,
    returns the identifier the first one returned, and the only call it makes
    is the lookup by the fixed name: no creation request. *)
Theorem provisioner_idempotent st id1 st1 :
  lookup_stable env -> created_is_found env ->
  get_or_create_graphlit_workflow lib env st = (Ok id1, st1) ->
  exists s2,
    get_or_create_graphlit_workflow lib env st1 =
    (Ok id1,
     {| svc := s2;
        trace := (trace st1 ++ [EvQueryWorkflows "ApiDocTextExtractionWorkflow"])%list |}).
Proof.
  intros Hstable Hcreated Hfirst.
  pose proof (provision_ok_finds st id1 st1 Hstable Hcreated Hfirst) as Hfinds.
  destruct st1 as [s1 tr1]. now apply provision_after_finds.
Qed.

(** *** The ingestion adapter without a source *)

(** With no usable source the adapter's own status-400 error is caught by its
    [except Exception] clause. *)
Lemma adapter_without_source name uri file_content mime st :
  Py.truthy_opt uri = false -> truthy_bytes file_content = false ->
  ingest_document_with_graphlit lib env name uri file_content mime st =
  match get_or_create_graphlit_workflow lib env st with
  | (Ok _, st1) =>
      (Raise (HTTPException 500
         ("Backend error during ingestion: " ++
          http_exception_str lib 400 adapter_validation_detail)),
       st1)
  | (Raise e, st1) => (Raise e, st1)
  end.
Proof.
  intros Hu Hf. unfold ingest_document_with_graphlit, bind at 1.
  destruct (get_or_create_graphlit_workflow lib env st) as [[wid|e] st1];
    [|reflexivity].
  unfold try_except, bind. now rewrite Hu, Hf.
Qed.

(** Provisioning starts with the lookup, and only talks to the workflow
    interface of the service. *)
Lemma provision_trace st :
  exists evs,
    trace (snd (get_or_create_graphlit_workflow lib env st)) =
      (trace st ++ EvQueryWorkflows workflow_name :: evs)%list /\
    forallb is_provisioning evs = true.
Proof.
  unfold get_or_create_graphlit_workflow, try_except, bind, call.
  destruct (query_workflows env workflow_name (svc st)) as [[r|e] s0]; simpl.
  - destruct (found_workflows r) as [|[[i0]|] rest]; simpl.
    + destruct (create_workflow env workflow_input s0) as [[[[[i1]|]]|e] s1];
        simpl.
      * exists [EvCreateWorkflow workflow_input]. now rewrite <- app_assoc.
      * exists [EvCreateWorkflow workflow_input]. now rewrite <- app_assoc.
      * exists [EvCreateWorkflow workflow_input].
        destruct e as [[es|] text|text]; simpl; now rewrite <- app_assoc.
    + now exists [].
    + now exists [].
  - exists []. destruct e as [[es|] text|text]; now simpl.
Qed.

(** C10.  Called with neither a URL nor file content, the adapter provisions
    the workflow first: its calls are the lookup and at most a creation.
    When provisioning succeeds, the status-400 error the adapter raises for
    the missing source is caught by its own [except Exception] clause, and
    what leaves the adapter is a status-500 error whose detail quotes it. *)
Theorem adapter_validation_error_is_rewrapped name mime st :
  ingest_document_with_graphlit lib env name None None mime st =
  match get_or_create_graphlit_workflow lib env st with
  | (Ok _, st1) =>
      (Raise (HTTPException 500
         ("Backend error during ingestion: " ++
          http_exception_str lib 400
            "Either doc_url or uploaded file content is required for ingestion.")),
       st1)
  | (Raise e, st1) => (Raise e, st1)
  end
  /\
  exists evs,
    trace (snd (ingest_document_with_graphlit lib env name None None mime st)) =
      (trace st ++ EvQueryWorkflows "ApiDocTextExtractionWorkflow" :: evs)%list /\
    forallb is_provisioning evs = true.
Proof.
  assert (E := adapter_without_source name None None mime st eq_refl eq_refl).
  split; [exact E|].
  rewrite E. destruct (provision_trace st) as [evs [Et Hp]].
  exists evs. split; [|exact Hp].
  now destruct (get_or_create_graphlit_workflow lib env st) as [[wid|e] st1].
Qed.

(** *** Retrieval *)

Lemma ingest_ok_truthy name uri fc mime st cid st1 :
  ingest_document_with_graphlit lib env name uri fc mime st = (Ok cid, st1) ->
  Py.truthy cid = true.
Proof.
  unfold ingest_document_with_graphlit, bind at 1.
  destruct (get_or_create_graphlit_workflow lib env st) as [[wid|e] st0];
    [|intros H; discriminate H].
  unfold try_except, bind at 1.
  match goal with
  | |- context [(if Py.truthy_opt uri then ?a else ?b) st0] =>
      destruct ((if Py.truthy_opt uri then a else b) st0) as [[c|e] st2]
  end.
  - destruct (Py.truthy c) eqn:E; simpl; intros H; inversion H; subst.
    exact E.
  - destruct e as [status detail|[errs text|text]]; intros H; discriminate H.
Qed.

Lemma ingest_step_ok_truthy req st cid st1 :
  ingest_step lib env req st = (Ok (Some cid), st1) -> Py.truthy cid = true.
Proof.
  unfold ingest_step. destruct (Py.truthy_opt (doc_url req)).
  - unfold bind.
    destruct (ingest_document_with_graphlit lib env _ _ _ _ st)
      as [[c|e] st0] eqn:E; intros H; inversion H; subst.
    eapply ingest_ok_truthy; eauto.
  - destruct (doc_file req) as [f|]; [|intros H; discriminate H].
    unfold bind at 1, read_upload. unfold bind at 1.
    destruct (determine_mime_type lib _ _ _) as [[mime|e] st0];
      [|intros H; discriminate H].
    unfold bind.
    destruct (ingest_document_with_graphlit lib env _ _ _ _ st0)
      as [[c|e] st2] eqn:E; intros H; inversion H; subst.
    eapply ingest_ok_truthy; eauto.
Qed.

Lemma get_markdown_unreadable cid st response s2 :
  get_content env cid (svc st) = (Returns response, s2) ->
  unreadable response = true ->
  let st' := {| svc := s2; trace := (trace st ++ [EvGetContent cid])%list |} in
  (exists detail,
     get_content_markdown_from_graphlit lib env cid st =
     (Raise (HTTPException 500 detail), st'))
  \/
  (exists md,
     get_content_markdown_from_graphlit lib env cid st = (Ok md, st') /\
     Py.blank md = true).
Proof.
  intros Hget Hun. unfold get_content_markdown_from_graphlit, try_except, bind, call.
  rewrite Hget.
  destruct response as [[[[[md|]]|]]|]; simpl in *;
    try (left; eexists; reflexivity).
  destruct (Py.truthy md) eqn:E; simpl.
  - right. exists md. split; [reflexivity | exact Hun].
  - left. eexists. reflexivity.
Qed.

Lemma ingestion_events_only url evs :
  forallb (ingestion_event url) evs = true ->
  existsb is_model evs = false /\ filter is_get_content evs = [].
Proof.
  induction evs as [|ev evs IH]; simpl; [auto|].
  intros H. apply andb_true_iff in H. destruct H as [H1 H2].
  destruct (IH H2) as [IH1 IH2].
  destruct ev; simpl in *; try discriminate; auto.
Qed.

(** C7.  When ingestion has returned a content identifier and the markdown
    retrieved for it is absent, empty or whitespace-only, the request ends
    with a status-500 error; the calls made are those of ingestion followed
    by the single retrieval, so no model is invoked and nothing is retried. *)
Theorem blank_content_is_terminal req st cid st1 response s2 :
  no_source req = false ->
  client_initialized env = true ->
  ingest_step lib env req st = (Ok (Some cid), st1) ->
  get_content env cid (svc st1) = (Returns response, s2) ->
  unreadable response = true ->
  exists detail evs,
    generate_sdk_endpoint lib env req st =
    (Raise (HTTPException 500 detail),
     {| svc := s2; trace := (trace st ++ evs)%list |})
    /\ existsb is_model evs = false
    /\ filter is_get_content evs = [EvGetContent cid].
Proof.
  intros Hsrc Hcl Hing Hget Hun.
  pose proof (ingest_step_ok_truthy _ _ _ _ Hing) as Hcid.
  destruct (ingest_step_emits req st) as [evs0 [Etrace Hevs]].
  rewrite Hing in Etrace. simpl in Etrace.
  destruct (ingestion_events_only _ _ Hevs) as [Hmodel Hget0].
  assert (Hshape : exists detail,
    retrieve_documentation lib env req st =
    (Raise (HTTPException 500 detail),
     {| svc := s2; trace := (trace st1 ++ [EvGetContent cid])%list |})).
  { unfold retrieve_documentation, bind at 1. rewrite Hing. simpl. rewrite Hcid. simpl.
    unfold bind.
    destruct (get_markdown_unreadable cid st1 response s2 Hget Hun)
      as [[detail E] | [md [E Hblank]]]; rewrite E.
    - eexists. reflexivity.
    - apply strip_falsy_iff_blank in Hblank. rewrite Hblank. simpl.
      eexists. reflexivity. }
  destruct Hshape as [detail Hret].
  exists detail, (evs0 ++ [EvGetContent cid])%list. split; [|split].
  - rewrite endpoint_eq, Hsrc, Hcl. simpl.
    unfold generate_code, bind. rewrite Hret. simpl.
    unfold raise. now rewrite Etrace, app_assoc.
  - rewrite existsb_app, Hmodel. reflexivity.
  - rewrite filter_app, Hget0. reflexivity.
Qed.

(** *** Status codes *)

(** C8, as the code has it.  A failing request with neither source has
    status 400; a failing request with a usable source has status 500,
    whatever the cause. *)
Theorem failure_status req st e :
  fst (generate_sdk_endpoint lib env req st) = Raise e ->
  (no_source req = true -> exists detail, e = HTTPException 400 detail) /\
  (usable_source req = true -> exists detail, e = HTTPException 500 detail).
Proof.
  rewrite endpoint_eq. intros H. split.
  - intros Hsrc. rewrite Hsrc in H. simpl in H. inversion H. eauto.
  - intros Huse.
    assert (Hsrc : no_source req = false).
    { unfold usable_source in Huse. unfold no_source.
      destruct (Py.truthy_opt (doc_url req)); [reflexivity|].
      destruct (doc_file req); [reflexivity | discriminate]. }
    rewrite Hsrc in H.
    destruct (negb (client_initialized env)); [simpl in H; inversion H; eauto|].
    pose proof (generate_code_raises req st) as Hraises.
    destruct (generate_code lib env req st) as [[code|e0] st1];
      [simpl in H; discriminate H|].
    specialize (Hraises e0 eq_refl).
    destruct e0 as [status detail|e0]; simpl in *.
    + subst. inversion H. eauto.
    + inversion H. eauto.
Qed.

(** *** The calls of a successful request *)








(** *** One source per request *)















End Properties.

(** C1.  When the usage-example stage raises, the request succeeds all the
    same: the response carries the fixed placeholder as [sdk_usage_example],
    and its [sdk_code] and [message] are those of the response obtained with
    any other behaviour [u] of the usage agent, a successful one included. *)
Theorem usage_failure_is_isolated {S} (lib : Library) (env : Env S) u req st r st' :
  (forall prompt s, usage_fails (fst (usage_arun env prompt s))) ->
  generate_sdk_endpoint lib (with_usage env u) req st = (Ok r, st') ->
  exists st'',
    generate_sdk_endpoint lib env req st =
    (Ok {| sdk_code := sdk_code r;
           sdk_usage_example := "Error generating usage example.";
           message := message r |}, st'').
Proof.
  intros Hfail. rewrite !endpoint_eq.
  change (client_initialized (with_usage env u)) with (client_initialized env).
  change (generate_code lib (with_usage env u) req st)
    with (generate_code lib env req st).
  destruct (no_source req); [discriminate|].
  destruct (client_initialized env); simpl; [|discriminate].
  destruct (generate_code lib env req st) as [[code|e] st1].
  - intros H. inversion H; subst; clear H. simpl.
    specialize (Hfail (usage_prompt code (sdk_name req) (base_url req)) (svc st1)).
    eexists. f_equal. f_equal. f_equal.
    unfold usage_text.
    destruct (fst (usage_arun env _ (svc st1))) as [[[text|]]|e];
      [contradiction | reflexivity | reflexivity].
  - destruct (endpoint_handler_raises lib (A := GenerateSdkResponse) e st1)
      as [status [detail [st2 E]]].
    rewrite E. discriminate.
Qed.


(** ** The pipeline on the concrete service *)

Lemma demo_lookup_stable ready md team usage :
  lookup_stable (Demo.env ready md team usage).
Proof.
  intros s r s' i rest Hq Hf. simpl in Hq. inversion Hq; subst.
  exists (Some (Demo.lookup workflow_name s')), s', rest. split; [reflexivity | exact Hf].
Qed.

Lemma demo_created_is_found ready md team usage :
  created_is_found (Demo.env ready md team usage).
Proof.
  intros s r s0 i s1 Hq Hf Hc. simpl in Hq, Hc.
  inversion Hq; subst; clear Hq. inversion Hc; subst; clear Hc.
  simpl in Hf. apply map_eq_nil in Hf.
  exists (Some (Demo.lookup workflow_name
                  (s0 ++ [(workflow_name, Demo.fresh_id s0)])%list)),
         (s0 ++ [(workflow_name, Demo.fresh_id s0)])%list, [].
  split; [reflexivity|].
  simpl. unfold Demo.named in *. now rewrite filter_app, Hf.
Qed.

Lemma usage_failure_is_isolated_witness :
  exists st'',
    generate_sdk_endpoint Demo.lib usage_down Demo.readme_request initial =
    (Ok {| sdk_code := Demo.sdk_text;
           sdk_usage_example := "Error generating usage example.";
           message := "TypeScript SDK generated successfully! SDK Name: MyApiSdk" |},
     st'').
Proof.
  apply (usage_failure_is_isolated Demo.lib usage_down
           (fun _ s => (Demo.reply "  main();  ", s))
           Demo.readme_request initial healthy_response
           (snd (generate_sdk_endpoint Demo.lib healthy Demo.readme_request initial))).
  - intros prompt s. exact I.
  - vm_compute. reflexivity.
Defined.

Lemma validation_precedes_network_witness :
  generate_sdk_endpoint Demo.lib healthy Demo.empty_request initial =
  (Raise (HTTPException 400
     "No API documentation provided. Please provide either a URL for the documentation or upload a file."),
   initial).
Proof.
  apply (validation_precedes_network Demo.lib healthy Demo.empty_request initial);
    reflexivity.
Defined.



Lemma success_message_names_sdk_witness :
  message healthy_response =
    "TypeScript SDK generated successfully! SDK Name: " ++ "MyApiSdk"
  /\ message healthy_response =
    "TypeScript SDK generated successfully! SDK Name: MyApiSdk".
Proof.
  destruct (success_message_names_sdk Demo.lib healthy Demo.readme_request initial
              healthy_response
              (snd (generate_sdk_endpoint Demo.lib healthy Demo.readme_request initial)))
    as [H1 H2].
  - vm_compute. reflexivity.
  - split; [exact H1 | apply H2; reflexivity].
Defined.

Lemma zip_has_no_entry extension type :
  In (extension, type) extension_table ->
  ~ exists before, Py.lower "archive.zip" = before ++ extension.
Proof.
  intros Hin Hex. apply endswith_iff in Hex. simpl in Hin.
  destruct Hin as [H|[H|[H|[H|[H|[]]]]]]; inversion H; subst;
    vm_compute in Hex; discriminate.
Qed.

Lemma mime_resolution_chain_witness :
  determine_mime_type Demo.lib (Some "text/html") (Some "spec.md") initial =
    (Ok "text/html", initial)
  /\ determine_mime_type Demo.lib None (Some "notes.txt") initial =
    (Ok "text/plain", initial)
  /\ determine_mime_type Demo.lib (Some "") (Some "README.MD") initial =
    (Ok "text/markdown", initial)
  /\ first_match (Py.lower "archive.zip") extension_table = "application/octet-stream"
  /\ determine_mime_type Demo.lib (Some "application/octet-stream")
       (Some "spec.md") initial = (Ok "text/markdown", initial)
  /\ determine_mime_type Demo.lib (Some "application/octet-stream")
       (Some "spec.pdf") initial = (Ok "application/pdf", initial).
Proof.
  destruct (mime_resolution_chain (S := Demo.Store) Demo.lib)
    as [H1 [H2 [H3 [H4 [H5 H6]]]]].
  split; [|split; [|split; [|split; [|split]]]].
  - apply H1; discriminate.
  - apply H2; [left; reflexivity | reflexivity | discriminate].
  - apply (H3 (Some "") "README.MD" initial);
      [right; left; reflexivity | left; reflexivity].
  - apply H4. exact zip_has_no_entry.
  - apply H5. left. reflexivity.
  - apply H6. right. reflexivity.
Defined.

Lemma provisioner_idempotent_witness :
  exists s2,
    get_or_create_graphlit_workflow Demo.lib healthy
      {| svc := [(workflow_name, "wf-0")];
         trace := [EvQueryWorkflows workflow_name; EvCreateWorkflow workflow_input] |} =
    (Ok "wf-0",
     {| svc := s2;
        trace := [EvQueryWorkflows workflow_name; EvCreateWorkflow workflow_input;
                  EvQueryWorkflows workflow_name] |}).
Proof.
  apply (provisioner_idempotent Demo.lib healthy initial "wf-0"
           {| svc := [(workflow_name, "wf-0")];
              trace := [EvQueryWorkflows workflow_name;
                        EvCreateWorkflow workflow_input] |}).
  - apply demo_lookup_stable.
  - apply demo_created_is_found.
  - reflexivity.
Defined.

Lemma blank_content_is_terminal_witness :
  exists detail evs,
    generate_sdk_endpoint Demo.lib blank_document Demo.readme_request initial =
    (Raise (HTTPException 500 detail),
     {| svc := [(workflow_name, "wf-0")]; trace := ([] ++ evs)%list |})
    /\ existsb is_model evs = false
    /\ filter is_get_content evs = [EvGetContent "content-of-https://example.com/readme"].
Proof.
  apply (blank_content_is_terminal Demo.lib blank_document Demo.readme_request
           initial "content-of-https://example.com/readme"
           (snd (ingest_step Demo.lib blank_document Demo.readme_request initial))
           (Some {| content := Some {| markdown := Some "   
  " |} |})
           [(workflow_name, "wf-0")]);
    reflexivity.
Defined.

Lemma failure_status_witness :
  (exists detail, HTTPException 400 validation_failure_detail = HTTPException 400 detail)
  /\
  (exists detail,
     HTTPException 500
       "Retrieved empty or invalid documentation content from Graphlit. Ensure the document contains readable text."
     = HTTPException 500 detail).
Proof.
  split.
  - apply (proj1 (failure_status Demo.lib healthy Demo.empty_request initial
                    (HTTPException 400 validation_failure_detail) eq_refl)).
    reflexivity.
  - apply (proj2 (failure_status Demo.lib blank_document Demo.readme_request initial
                    (HTTPException 500
                       "Retrieved empty or invalid documentation content from Graphlit. Ensure the document contains readable text.")
                    eq_refl)).
    reflexivity.
Defined.

(** C8 as stated fails: no single status code covers every failing request.
    The request without a source fails with 400, the request whose document
    is blank fails with 500. *)
Lemma failure_status_not_uniform :
  ~ exists code : Z,
      forall (e : Env Demo.Store) req st status detail,
        fst (generate_sdk_endpoint Demo.lib e req st) =
          Raise (HTTPException status detail) ->
        status = code.
Proof.
  intros [code H].
  pose proof (H healthy Demo.empty_request initial 400%Z _ eq_refl) as H400.
  pose proof (H blank_document Demo.readme_request initial 500%Z _ eq_refl) as H500.
  lia.
Qed.


(** An upload without bytes reaches the adapter with no usable source: the
    request fails with status 500, and the detail quotes the adapter's 400. *)
Example empty_upload_is_status_500 :
  run (generate_sdk_endpoint Demo.lib healthy
         (Demo.upload "spec.md" "text/markdown" [])) [] =
  (Raise (HTTPException 500
     "Backend error during ingestion: 400: Either doc_url or uploaded file content is required for ingestion."),
   {| svc := [(workflow_name, "wf-0")];
      trace := [EvReadUpload (Some "spec.md"); EvQueryWorkflows workflow_name;
                EvCreateWorkflow workflow_input] |}).
Proof. reflexivity. Qed.

(** A team reply without content is rejected too, through the handler's
    last [except] clause: building the log text fails first. *)
Example silent_team_is_status_500 :
  fst (run (generate_sdk_endpoint Demo.lib silent_team Demo.readme_request) []) =
  Raise (HTTPException 500
    "An unexpected internal server error occurred: 'NoneType' object is not subscriptable. Please check backend logs for more details.").
Proof. reflexivity. Qed.

(** The end-to-end scenario, with the calls it makes. *)
Example readme_scenario :
  let (r, st) := run (generate_sdk_endpoint Demo.lib healthy Demo.readme_request) [] in
  r = Ok healthy_response /\
  map is_network (trace st) = [true; true; true; true; true; true] /\
  filter is_create (trace st) = [EvCreateWorkflow workflow_input] /\
  svc st = [(workflow_name, "wf-0")].
Proof. vm_compute. repeat split. Qed.

(** An upload of [spec.md] declared as a generic binary is ingested as
    markdown. *)
Example upload_scenario :
  let (r, st) := run (generate_sdk_endpoint Demo.lib healthy
                        (Demo.upload "spec.md" "application/octet-stream"
                           [Byte.x23; Byte.x20; Byte.x41])) [] in
  r = Ok healthy_response /\
  filter is_file_use (trace st) =
    [EvReadUpload (Some "spec.md");
     EvIngestEncodedFile (Some "spec.md") "IyBB" (Some "text/markdown") "wf-0"].
Proof. vm_compute. repeat split. Qed.

(** ** Further properties of the helpers and of the handler *)

Section Coverage.

Context {S : Type}.
Variable lib : Library.
Variable env : Env S.

(** *** The workflow provisioner *)

(** X1.  When the lookup by the fixed name returns results, the provisioner
    returns the identifier of the first one; the lookup is its only call. *)
Theorem provision_reuses_first_result st r s' i rest :
  query_workflows env "ApiDocTextExtractionWorkflow" (svc st) = (Returns r, s') ->
  found_workflows r = Some {| entity_id := i |} :: rest ->
  get_or_create_graphlit_workflow lib env st =
  (Ok i, {| svc := s';
            trace := (trace st ++ [EvQueryWorkflows "ApiDocTextExtractionWorkflow"])%list |}).
Proof.
  intros Hq Hf.
  unfold get_or_create_graphlit_workflow, try_except, bind, call.
  fold workflow_name in Hq. rewrite Hq. simpl. now rewrite Hf.
Qed.

(** X2.  The provisioner always starts with the lookup, and sends a creation
    request, for the single-stage layout-extraction workflow of the same
    name, exactly when the lookup returned without any result; it makes no
    other call. *)
Theorem provision_creates_only_after_empty_lookup st :
  trace (snd (get_or_create_graphlit_workflow lib env st)) =
  (trace st ++
   EvQueryWorkflows "ApiDocTextExtractionWorkflow" ::
   match query_workflows env "ApiDocTextExtractionWorkflow" (svc st) with
   | (Returns r, _) =>
       match found_workflows r with
       | [] => [EvCreateWorkflow
                  {| wi_name := "ApiDocTextExtractionWorkflow";
                     preparation_jobs :=
                       [ {| connector_type := AZURE_DOCUMENT_INTELLIGENCE;
                            azureDocument := LAYOUT |} ] |}]
       | _ :: _ => []
       end
   | (Throws _, _) => []
   end)%list.
Proof.
  unfold get_or_create_graphlit_workflow, try_except, bind, call.
  fold workflow_name. fold workflow_input.
  destruct (query_workflows env workflow_name (svc st)) as [[r|e] s0]; simpl.
  - destruct (found_workflows r) as [|[[i0]|] rest]; simpl; try reflexivity.
    destruct (create_workflow env workflow_input s0) as [[[[[i1]|]]|e] s1]; simpl;
      rewrite <- ?app_assoc; try reflexivity.
    destruct e as [[es|] text|text]; simpl; rewrite <- ?app_assoc; reflexivity.
  - destruct e as [[es|] text|text]; reflexivity.
Qed.

(** X3.  What leaves the provisioner when the lookup throws: a
    [GraphQLClientError] with an [errors] attribute and any other exception
    become status-500 errors that carry the upstream text; a
    [GraphQLClientError] without [errors] makes the handler itself fail, and
    what leaves is not an [HTTPException]. *)
Theorem provision_lookup_failure st e s' :
  query_workflows env "ApiDocTextExtractionWorkflow" (svc st) = (Throws e, s') ->
  match e with
  | GraphQLClientError (Some es) _ =>
      fst (get_or_create_graphlit_workflow lib env st) =
      Raise (HTTPException 500 ("Graphlit API error during workflow creation: " ++ es))
  | GraphQLClientError None _ =>
      exists e', fst (get_or_create_graphlit_workflow lib env st) = Raise (LibError e')
  | OtherError text =>
      fst (get_or_create_graphlit_workflow lib env st) =
      Raise (HTTPException 500
               ("Backend error during Graphlit workflow setup: " ++ text))
  end.
Proof.
  intros Hq.
  unfold get_or_create_graphlit_workflow, try_except, bind, call.
  fold workflow_name in Hq. rewrite Hq.
  destruct e as [[es|] text|text]; simpl; eauto.
Qed.

(** *** The ingestion adapter *)

Lemma ingest_ok_shape name uri fc mime st cid st1 :
  ingest_document_with_graphlit lib env name uri fc mime st = (Ok cid, st1) ->
  cid <> "" /\
  exists wid st0,
    get_or_create_graphlit_workflow lib env st = (Ok wid, st0) /\
    ((exists u, uri = Some u /\ u <> "" /\
        trace st1 = (trace st0 ++ [EvIngestUri u wid])%list)
     \/
     (Py.truthy_opt uri = false /\
      exists b, fc = Some b /\ b <> [] /\
        trace st1 =
        (trace st0 ++ [EvIngestEncodedFile name (b64encode lib b) mime wid])%list)).
Proof.
  intros H. split.
  { apply truthy_true_iff. eapply ingest_ok_truthy; eauto. }
  revert H. unfold ingest_document_with_graphlit, bind at 1.
  destruct (get_or_create_graphlit_workflow lib env st) as [[wid|e] st0];
    [|intros H; discriminate H].
  intros H. exists wid, st0. split; [reflexivity|].
  revert H. unfold try_except, bind, call.
  destruct (Py.truthy_opt uri) eqn:Hu.
  - destruct uri as [u|]; [|discriminate Hu]. simpl in Hu.
    destruct (ingest_uri env u wid (svc st0)) as [[[[[i]|]]|e] s']; simpl.
    + destruct (Py.truthy i); simpl; intros H; inversion H; subst; clear H.
      left. exists u. split; [reflexivity|]. split; [now apply truthy_true_iff|].
      reflexivity.
    + intros H; discriminate H.
    + destruct e; intros H; discriminate H.
  - destruct fc as [[|b0 b]|]; simpl; try (intros H; discriminate H).
    destruct (ingest_encoded_file env _ _ _ wid (svc st0)) as [[[[[i]|]]|e] s'];
      simpl.
    + destruct (Py.truthy i); simpl; intros H; inversion H; subst; clear H.
      right. split; [reflexivity|]. exists (b0 :: b).
      split; [reflexivity|]. split; [discriminate | reflexivity].
    + intros H; discriminate H.
    + destruct e; intros H; discriminate H.
Qed.

(** X4.  When the adapter returns a content identifier, that identifier is
    not empty, provisioning had returned a workflow identifier, and the one
    call made after provisioning is the ingestion with that workflow: of the
    URL when one is given (the file content is then ignored), otherwise of
    the base64 text of the non-empty file content under the given name and
    MIME type. *)
Theorem adapter_success_shape name uri fc mime st cid st1 :
  ingest_document_with_graphlit lib env name uri fc mime st = (Ok cid, st1) ->
  cid <> "" /\
  exists wid st0,
    get_or_create_graphlit_workflow lib env st = (Ok wid, st0) /\
    ((exists u, uri = Some u /\ u <> "" /\
        trace st1 = (trace st0 ++ [EvIngestUri u wid])%list)
     \/
     (Py.truthy_opt uri = false /\
      exists b, fc = Some b /\ b <> [] /\
        trace st1 =
        (trace st0 ++ [EvIngestEncodedFile name (b64encode lib b) mime wid])%list)).
Proof. exact (ingest_ok_shape name uri fc mime st cid st1). Qed.

(** The calls of the provisioner: the lookup, then at most the creation. *)
Lemma provision_trace_cases st :
  exists creation,
    trace (snd (get_or_create_graphlit_workflow lib env st)) =
      (trace st ++ EvQueryWorkflows workflow_name :: creation)%list /\
    (creation = [] \/ creation = [EvCreateWorkflow workflow_input]).
Proof.
  unfold get_or_create_graphlit_workflow, try_except, bind, call.
  destruct (query_workflows env workflow_name (svc st)) as [[r|e] s0]; simpl.
  - destruct (found_workflows r) as [|[[i0]|] rest]; simpl.
    + exists [EvCreateWorkflow workflow_input]. split; [|now right].
      destruct (create_workflow env workflow_input s0) as [[[[[i1]|]]|e] s1]; simpl;
        rewrite <- ?app_assoc; try reflexivity.
      destruct e as [[es|] text|text]; simpl; rewrite <- ?app_assoc; reflexivity.
    + exists []. split; [reflexivity | now left].
    + exists []. split; [reflexivity | now left].
  - exists []. split; [|now left]. destruct e as [[es|] text|text]; reflexivity.
Qed.

Lemma ingest_step_yields_id req st c st1 :
  no_source req = false ->
  ingest_step lib env req st = (Ok c, st1) ->
  exists cid, c = Some cid /\ Py.truthy cid = true.
Proof.
  intros Hsrc H. destruct c as [cid|].
  - exists cid. split; [reflexivity|]. eapply ingest_step_ok_truthy; eauto.
  - exfalso. revert H. unfold ingest_step. unfold no_source in Hsrc.
    destruct (Py.truthy_opt (doc_url req)).
    + unfold bind.
      destruct (ingest_document_with_graphlit lib env _ _ _ _ st) as [[c|e] st0];
        intros H; discriminate H.
    + destruct (doc_file req) as [f|]; [|discriminate Hsrc].
      unfold bind at 1, read_upload. unfold bind at 1.
      destruct (determine_mime_type lib _ _ _) as [[m|e] st0];
        [|intros H; discriminate H].
      unfold bind.
      destruct (ingest_document_with_graphlit lib env _ _ _ _ st0) as [[c|e] st2];
        intros H; discriminate H.
Qed.

(** *** The retrieval adapter *)

(** X5.  Markdown returned by the retrieval adapter is not empty and is the
    markdown the service answered for that content; the adapter made one
    call. *)
Theorem retrieval_returns_service_markdown cid st md st1 :
  get_content_markdown_from_graphlit lib env cid st = (Ok md, st1) ->
  md <> "" /\
  exists s',
    get_content env cid (svc st) =
      (Returns (Some {| content := Some {| markdown := Some md |} |}), s') /\
    st1 = {| svc := s'; trace := (trace st ++ [EvGetContent cid])%list |}.
Proof.
  unfold get_content_markdown_from_graphlit, try_except, bind, call.
  destruct (get_content env cid (svc st))
    as [ [ [ [ [ [ [md0|] ] | ] ] | ] | e ] s' ]; simpl;
    try (intros H; discriminate H).
  - destruct (Py.truthy md0) eqn:E; simpl; intros H; inversion H; subst.
    split; [now apply truthy_true_iff | eauto].
  - destruct e; intros H; discriminate H.
Qed.

(** X6.  An outage of the service during retrieval: when ingestion has
    returned a content identifier and the retrieval call throws, the request
    fails with status 500 and a detail that carries the upstream error text. *)
Theorem retrieval_outage_is_reported req st cid st1 e s2 :
  no_source req = false ->
  client_initialized env = true ->
  ingest_step lib env req st = (Ok (Some cid), st1) ->
  get_content env cid (svc st1) = (Throws e, s2) ->
  generate_sdk_endpoint lib env req st =
  (Raise (HTTPException 500 (retrieval_error_detail e)),
   {| svc := s2; trace := (trace st1 ++ [EvGetContent cid])%list |}).
Proof.
  intros Hsrc Hcl Hing Hget.
  pose proof (ingest_step_ok_truthy lib env _ _ _ _ Hing) as Hcid.
  rewrite endpoint_eq, Hsrc, Hcl. simpl.
  unfold generate_code, bind at 1.
  unfold retrieve_documentation, bind at 1. rewrite Hing. simpl. rewrite Hcid. simpl.
  unfold bind at 1.
  unfold get_content_markdown_from_graphlit, try_except, bind, call.
  rewrite Hget. destruct e as [[es|] text|text]; reflexivity.
Qed.

(** *** The handler's own check of the content identifier *)

Ltac not_guard :=
  let s := fresh "s" in
  let H := fresh "H" in
  apply raises_raise; intros s H; simpl in H; discriminate H.

Lemma provision_not_guard :
  raises_only not_missing_content_id (get_or_create_graphlit_workflow lib env).
Proof.
  unfold get_or_create_graphlit_workflow.
  apply raises_try_except. intros [status detail|[[es|] text|text]]; not_guard.
Qed.

Lemma ingest_not_guard name uri fc mime :
  raises_only not_missing_content_id
    (ingest_document_with_graphlit lib env name uri fc mime).
Proof.
  unfold ingest_document_with_graphlit.
  apply raises_bind; [apply provision_not_guard | intros wid].
  apply raises_try_except. intros [status detail|[errs text|text]]; not_guard.
Qed.

Lemma get_markdown_not_guard cid :
  raises_only not_missing_content_id
    (get_content_markdown_from_graphlit lib env cid).
Proof.
  unfold get_content_markdown_from_graphlit.
  apply raises_try_except. intros [status detail|[errs text|text]]; not_guard.
Qed.

Lemma generate_code_not_guard req :
  no_source req = false ->
  raises_only not_missing_content_id (generate_code lib env req).
Proof.
  intros Hsrc st e. unfold generate_code, bind at 1.
  unfold retrieve_documentation, bind at 1.
  destruct (ingest_step lib env req st) as [[c|e0] st1] eqn:Hing.
  - destruct (ingest_step_yields_id _ _ _ _ Hsrc Hing) as [cid [-> Hcid]].
    simpl. rewrite Hcid. simpl. unfold bind at 1.
    pose proof (get_markdown_not_guard cid st1) as Hm.
    destruct (get_content_markdown_from_graphlit lib env cid st1)
      as [[md|e1] st2]; simpl in *.
    + destruct (negb (Py.truthy (Py.strip md))); simpl.
      * intros H. inversion H; subst. intros status H'. discriminate H'.
      * unfold run_team, bind, call.
        destruct (team_arun env _ (svc st2)) as [[[[code|]]|e2] s3]; simpl.
        -- destruct (implausible code); simpl; intros H; inversion H; subst.
           intros status H'. discriminate H'.
        -- intros H. inversion H; subst. intros status H'. discriminate H'.
        -- intros H. inversion H; subst. intros status H'. discriminate H'.
    + intros H. inversion H; subst. now apply Hm.
  - simpl. intros H. inversion H; subst.
    assert (Hr : raises_only not_missing_content_id (ingest_step lib env req)).
    { unfold ingest_step. destruct (Py.truthy_opt (doc_url req)).
      - apply raises_bind; [apply ingest_not_guard | intros; apply raises_ret].
      - destruct (doc_file req) as [f|]; [|apply raises_ret].
        apply raises_bind; [intros st0 e1 H1; discriminate H1 | intros data].
        apply raises_bind.
        + unfold determine_mime_type.
          destruct (match content_type f with Some _ => _ | None => _ end).
          * destruct (filename f) as [n|];
              [destruct (Py.truthy_opt _); apply raises_ret | not_guard].
          * apply raises_ret.
        + intros mime.
          apply raises_bind; [apply ingest_not_guard | intros; apply raises_ret]. }
    apply (Hr st). now rewrite Hing.
Qed.

(** X7.  The handler's check of [content_id] after ingestion never fires: no
    failing request carries its detail, because the adapter only ever returns
    a non-empty identifier. *)
Theorem content_id_check_never_fires req st status detail :
  fst (generate_sdk_endpoint lib env req st) = Raise (HTTPException status detail) ->
  detail <>
  "Graphlit ingestion failed to return a content ID. This may indicate an issue with Graphlit service or provided credentials/document.".
Proof.
  rewrite endpoint_eq.
  destruct (no_source req) eqn:Hsrc.
  { simpl. intros H. inversion H; subst. discriminate. }
  destruct (negb (client_initialized env)).
  { simpl. intros H. inversion H; subst. discriminate. }
  pose proof (generate_code_not_guard req Hsrc st) as Hg.
  destruct (generate_code lib env req st) as [[code|e] st1]; simpl in *.
  { intros H. discriminate H. }
  specialize (Hg e eq_refl).
  destruct e as [status0 detail0|e]; simpl.
  - intros H. inversion H; subst. intros Heq. apply (Hg status). now rewrite Heq.
  - intros H. inversion H; subst. discriminate.
Qed.

(** *** The order of the calls *)

Ltac emits_all :=
  repeat first
    [ apply emits_ret
    | apply emits_raise
    | apply emits_getattr
    | apply emits_call; reflexivity
    | apply emits_bind; [|intros ?]
    | apply emits_try_except; [|intros ?]
    | match goal with
      | |- emits _ (match ?x with _ => _ end) => destruct x
      end ].

Lemma generate_code_no_usage req :
  emits (fun ev => negb (is_usage ev)) (generate_code lib env req).
Proof.
  unfold generate_code, retrieve_documentation, run_team,
    get_content_markdown_from_graphlit.
  apply emits_bind; [|intros raw; emits_all].
  apply emits_bind.
  - apply emits_weaken with (P := ingestion_event (Py.truthy_opt (doc_url req)));
      [|apply ingest_step_emits].
    intros [ | | | | | | | ]; simpl; intros; congruence.
  - intros cid. emits_all.
Qed.

Lemma run_team_ok_trace req raw st code st1 :
  run_team env req raw st = (Ok code, st1) ->
  trace st1 =
  (trace st ++ [EvTeamRun (team_initial_input raw (sdk_name req) (version req)
                             (base_url req))])%list.
Proof.
  unfold run_team, bind, call.
  destruct (team_arun env _ (svc st)) as [[[[text|]]|e] s']; simpl;
    try (intros H; discriminate H).
  destruct (implausible text); simpl; intros H; inversion H; subst. reflexivity.
Qed.

Lemma get_markdown_ok cid st md st1 :
  get_content_markdown_from_graphlit lib env cid st = (Ok md, st1) ->
  exists s',
    get_content env cid (svc st) =
      (Returns (Some {| content := Some {| markdown := Some md |} |}), s') /\
    st1 = {| svc := s'; trace := (trace st ++ [EvGetContent cid])%list |}.
Proof.
  unfold get_content_markdown_from_graphlit, try_except, bind, call.
  destruct (get_content env cid (svc st))
    as [ [ [ [ [ [ [md0|] ] | ] ] | ] | e ] s' ]; simpl;
    try (intros H; discriminate H).
  - destruct (Py.truthy md0); simpl; intros H; inversion H; subst. eauto.
  - destruct e; intros H; discriminate H.
Qed.

Lemma run_team_ok req raw st code st1 :
  run_team env req raw st = (Ok code, st1) ->
  exists s',
    team_arun env (team_initial_input raw (sdk_name req) (version req) (base_url req))
              (svc st) = (Returns {| run_content := Some code |}, s') /\
    st1 = {| svc := s';
             trace := (trace st ++
                       [EvTeamRun (team_initial_input raw (sdk_name req)
                                     (version req) (base_url req))])%list |}.
Proof.
  unfold run_team, bind, call.
  destruct (team_arun env _ (svc st)) as [[[[text|]]|e] s']; simpl;
    try (intros H; discriminate H).
  destruct (implausible text); simpl; intros H; inversion H; subst. eauto.
Qed.

(** X8.  The data and the calls of a successful request.  Ingestion
    returned a content identifier [cid]; the one retrieval asked for [cid],
    in the state ingestion left, and the service answered the markdown
    [raw], which is not blank; the one team run got the prompt built from
    that [raw] and the request's configuration, in the state retrieval
    left, and answered the text returned as [sdk_code]; the one usage run
    got the prompt built from that code, in the state the team left, and
    its outcome decides [sdk_usage_example].  The trace is the calls of
    ingestion followed by these three. *)
Theorem success_call_sequence req st r st' :
  generate_sdk_endpoint lib env req st = (Ok r, st') ->
  exists evs cid raw st1 s2 s3,
    ingest_step lib env req st = (Ok (Some cid), st1) /\
    trace st1 = (trace st ++ evs)%list /\
    forallb (ingestion_event (Py.truthy_opt (doc_url req))) evs = true /\
    get_content env cid (svc st1) =
      (Returns (Some {| content := Some {| markdown := Some raw |} |}), s2) /\
    Py.blank raw = false /\
    team_arun env (team_initial_input raw (sdk_name req) (version req) (base_url req))
              s2 = (Returns {| run_content := Some (sdk_code r) |}, s3) /\
    sdk_usage_example r =
      usage_text (fst (usage_arun env
                         (usage_prompt (sdk_code r) (sdk_name req) (base_url req)) s3)) /\
    svc st' =
      snd (usage_arun env
             (usage_prompt (sdk_code r) (sdk_name req) (base_url req)) s3) /\
    trace st' =
    (trace st ++ evs ++
     [EvGetContent cid;
      EvTeamRun (team_initial_input raw (sdk_name req) (version req) (base_url req));
      EvUsageRun (usage_prompt (sdk_code r) (sdk_name req) (base_url req))])%list.
Proof.
  rewrite endpoint_eq.
  destruct (no_source req); [intros H; discriminate H|].
  destruct (negb (client_initialized env)); [intros H; discriminate H|].
  destruct (generate_code lib env req st) as [[code|e] st4] eqn:G.
  2:{ destruct (endpoint_handler_raises lib (A := GenerateSdkResponse) e st4)
        as [status [detail [st5 E]]].
      rewrite E. intros H; discriminate H. }
  intros H. inversion H; subst; clear H. simpl.
  revert G. unfold generate_code, bind at 1.
  destruct (retrieve_documentation lib env req st) as [[raw|e] st2] eqn:R;
    [|intros H; discriminate H].
  intros T. apply run_team_ok in T. destruct T as [s3 [Hteam ->]].
  revert R. unfold retrieve_documentation, bind at 1.
  destruct (ingest_step_emits lib env req st) as [evs [Ei Hevs]].
  destruct (ingest_step lib env req st) as [[[cid|]|e] st1]; simpl;
    [| intros H; discriminate H | intros H; discriminate H].
  simpl in Ei.
  destruct (Py.truthy cid); simpl; [|intros H; discriminate H].
  unfold bind.
  destruct (get_content_markdown_from_graphlit lib env cid st1)
    as [[md|e] st3] eqn:Hm; [|intros H; discriminate H].
  apply get_markdown_ok in Hm. destruct Hm as [s2 [Hget ->]].
  destruct (Py.truthy (Py.strip md)) eqn:Hstrip; simpl; intros H; inversion H; subst.
  simpl in *.
  exists evs, cid, raw, st1, s2, s3.
  split; [reflexivity|]. split; [exact Ei|]. split; [exact Hevs|].
  split; [exact Hget|]. split.
  { destruct (Py.blank raw) eqn:Hb; [|reflexivity].
    apply strip_falsy_iff_blank in Hb. congruence. }
  split; [exact Hteam|]. split; [reflexivity|]. split; [reflexivity|].
  rewrite Ei. now rewrite <- !app_assoc.
Qed.

(** X9.  A request that fails has not invoked the usage agent. *)
Theorem failure_skips_usage req st e :
  fst (generate_sdk_endpoint lib env req st) = Raise e ->
  exists evs,
    trace (snd (generate_sdk_endpoint lib env req st)) = (trace st ++ evs)%list /\
    existsb is_usage evs = false.
Proof.
  rewrite endpoint_eq.
  destruct (no_source req).
  { intros _. exists []. simpl. now rewrite app_nil_r. }
  destruct (negb (client_initialized env)).
  { intros _. exists []. simpl. now rewrite app_nil_r. }
  destruct (generate_code_no_usage req st) as [evs [Et Hevs]].
  destruct (generate_code lib env req st) as [[code|e0] st1]; simpl in *.
  { intros H. discriminate H. }
  intros _. exists evs. split.
  - destruct e0 as [status detail|e0]; exact Et.
  - clear Et. induction evs as [|ev evs IH]; simpl in *; [reflexivity|].
    apply andb_true_iff in Hevs. destruct Hevs as [H1 H2].
    rewrite (IH H2). now destruct (is_usage ev).
Qed.

(** *** The team run *)

(** X10.  Once the documentation is retrieved and the team returns code
    that has one of the four keywords somewhere, the request succeeds
    whatever the usage agent does, and [sdk_code] is the team's text as it
    is. *)
Theorem plausible_code_is_returned_verbatim
    req st raw st1 code s2 kw before after :
  no_source req = false ->
  client_initialized env = true ->
  retrieve_documentation lib env req st = (Ok raw, st1) ->
  team_arun env (team_initial_input raw (sdk_name req) (version req) (base_url req))
            (svc st1) = (Returns {| run_content := Some code |}, s2) ->
  In kw ["interface"; "class"; "async"; "fetch"] ->
  code = before ++ kw ++ after ->
  exists usage st',
    generate_sdk_endpoint lib env req st =
    (Ok {| sdk_code := code;
           sdk_usage_example := usage;
           message := "TypeScript SDK generated successfully! SDK Name: " ++ sdk_name req |},
     st').
Proof.
  intros Hsrc Hcl Hdoc Hteam Hin Hcode.
  assert (Himp : implausible code = false).
  { unfold implausible. apply orb_false_iff. split; apply negb_false_iff.
    - apply truthy_true_iff. intros ->.
      destruct before; [|discriminate Hcode]. simpl in Hcode, Hin.
      destruct Hin as [<-|[<-|[<-|[<-|[]]]]]; discriminate Hcode.
    - unfold Py.any. apply existsb_exists. exists kw. split; [exact Hin|].
      apply contains_iff. eauto. }
  rewrite endpoint_eq, Hsrc, Hcl. simpl.
  unfold generate_code, bind. rewrite Hdoc.
  unfold run_team, bind, call. rewrite Hteam. simpl. rewrite Himp. simpl.
  eexists. eexists. reflexivity.
Qed.

(** X11.  When the team run throws, the request fails with status 500 and a
    detail that quotes the error text; the team run is the last call. *)
Theorem team_outage_is_reported req st raw st1 e s2 :
  no_source req = false ->
  client_initialized env = true ->
  retrieve_documentation lib env req st = (Ok raw, st1) ->
  team_arun env (team_initial_input raw (sdk_name req) (version req) (base_url req))
            (svc st1) = (Throws e, s2) ->
  generate_sdk_endpoint lib env req st =
  (Raise (HTTPException 500
     ("An unexpected internal server error occurred: " ++
      match e with GraphQLClientError _ text => text | OtherError text => text end ++
      ". Please check backend logs for more details.")),
   {| svc := s2;
      trace := (trace st1 ++
                [EvTeamRun (team_initial_input raw (sdk_name req) (version req)
                              (base_url req))])%list |}).
Proof.
  intros Hsrc Hcl Hdoc Hteam.
  rewrite endpoint_eq, Hsrc, Hcl. simpl.
  unfold generate_code, bind. rewrite Hdoc.
  unfold run_team, bind, call. rewrite Hteam. simpl.
  destruct e as [errs text|text]; reflexivity.
Qed.

(** *** The usage-example stage *)

(** X12.  [generate_sdk_usage_example] returns whatever the agent does: it
    makes one call, with the prompt built from its three arguments, and its
    value is the stripped reply, or the placeholder when the agent threw or
    its reply had no content. *)
Theorem usage_stage_always_returns code name url st :
  exists text s',
    generate_sdk_usage_example env code name url st =
    (Ok text,
     {| svc := s';
        trace := (trace st ++ [EvUsageRun (usage_prompt code name url)])%list |}) /\
    ((usage_fails (fst (usage_arun env (usage_prompt code name url) (svc st))) /\
      text = "Error generating usage example.")
     \/
     (exists reply,
        fst (usage_arun env (usage_prompt code name url) (svc st)) =
          Returns {| run_content := Some reply |} /\
        text = Py.strip reply)).
Proof.
  rewrite usage_example_returns. eexists. eexists. split; [reflexivity|].
  destruct (fst (usage_arun env (usage_prompt code name url) (svc st)))
    as [[[reply|]]|e]; simpl.
  - right. eauto.
  - left. split; [exact I | reflexivity].
  - left. split; [exact I | reflexivity].
Qed.

(** *** Uploads *)

Lemma mime_from_extension_nonempty name : mime_from_extension name <> "".
Proof.
  unfold mime_from_extension.
  repeat match goal with
  | |- context [if ?b then _ else _] => destruct b
  end; discriminate.
Qed.

(** The MIME inference leaves the state alone, and its result is never the
    empty string. *)
Lemma determine_mime_nonempty declared name (st : St S) m st' :
  determine_mime_type lib declared name st = (Ok m, st') ->
  st' = st /\ m <> "".
Proof.
  unfold determine_mime_type.
  destruct (match declared with Some _ => _ | None => _ end) eqn:G.
  - destruct name as [n|]; [|intros H; discriminate H].
    destruct (guess_type lib n) as [g|] eqn:Hg; simpl.
    + destruct (Py.truthy g) eqn:Ht; intros H; inversion H; subst.
      * split; [reflexivity | now apply truthy_true_iff].
      * split; [reflexivity | apply mime_from_extension_nonempty].
    + intros H; inversion H; subst.
      split; [reflexivity | apply mime_from_extension_nonempty].
  - destruct declared as [t|]; [|discriminate G].
    apply orb_false_iff in G. destruct G as [_ G]. apply negb_false_iff in G.
    intros H; inversion H; subst. split; [reflexivity | now apply truthy_true_iff].
Qed.

(** X13.  Ingestion of an upload, when it succeeds: the file is read, the
    workflow is looked up and at most created, and the last call submits the
    base64 text of
    exactly the uploaded bytes, which are not empty, under the upload's file
    name, with a MIME type that is never missing or empty. *)
Theorem upload_is_ingested_as_received req st cid st1 :
  Py.truthy_opt (doc_url req) = false ->
  ingest_step lib env req st = (Ok (Some cid), st1) ->
  exists f mime wid evs,
    doc_file req = Some f /\
    file_data f <> [] /\
    mime <> "" /\
    trace st1 =
    (trace st ++ EvReadUpload (filename f) ::
     EvQueryWorkflows "ApiDocTextExtractionWorkflow" :: evs ++
     [EvIngestEncodedFile (filename f) (b64encode lib (file_data f))
                          (Some mime) wid])%list /\
    (evs = [] \/ evs = [EvCreateWorkflow workflow_input]).
Proof.
  intros Hu. unfold ingest_step. rewrite Hu.
  destruct (doc_file req) as [f|]; [|intros H; discriminate H].
  unfold bind at 1, read_upload. unfold bind at 1.
  destruct (determine_mime_type lib (content_type f) (filename f)
              {| svc := svc st;
                 trace := (trace st ++ [EvReadUpload (filename f)])%list |})
    as [[mime|e] st0] eqn:Hm; [|intros H; discriminate H].
  destruct (determine_mime_nonempty _ _ _ _ _ Hm) as [-> Hne].
  unfold bind.
  destruct (ingest_document_with_graphlit lib env (filename f) None
              (Some (file_data f)) (Some mime) _) as [[c|e] st2] eqn:Hing;
    intros H; inversion H; subst; clear H.
  destruct (ingest_ok_shape _ _ _ _ _ _ _ Hing)
    as [_ [wid [st3 [Hprov [[u [Hsome _]] | [_ [b [Hb [Hbne Ht]]]]]]]]];
    [discriminate Hsome|].
  inversion Hb; subst b.
  destruct (provision_trace_cases
              {| svc := svc st;
                 trace := (trace st ++ [EvReadUpload (filename f)])%list |})
    as [evs [Ep Hevs]].
  rewrite Hprov in Ep. simpl in Ep.
  exists f, mime, wid, evs.
  split; [reflexivity|]. split; [exact Hbne|]. split; [exact Hne|].
  split; [|exact Hevs].
  rewrite Ht, Ep. rewrite <- !app_assoc. reflexivity.
Qed.

(** X14.  An upload that has no file name and a missing or generic content
    type cannot be typed: the request fails with status 500 after reading the
    file, before any call to the ingestion service. *)
Theorem upload_without_filename_fails req st f :
  client_initialized env = true ->
  Py.truthy_opt (doc_url req) = false ->
  doc_file req = Some f ->
  filename f = None ->
  generic (content_type f) ->
  exists detail,
    generate_sdk_endpoint lib env req st =
    (Raise (HTTPException 500 detail),
     {| svc := svc st; trace := (trace st ++ [EvReadUpload None])%list |}).
Proof.
  intros Hcl Hu Hf Hn Hg.
  rewrite endpoint_eq. unfold no_source. rewrite Hu, Hf, Hcl. simpl.
  unfold generate_code, bind at 1. unfold retrieve_documentation, bind at 1.
  unfold ingest_step. rewrite Hu, Hf.
  unfold bind at 1, read_upload. unfold bind at 1.
  unfold determine_mime_type. rewrite (generic_test _ Hg), Hn. simpl.
  eexists. reflexivity.
Qed.

(** *** Start-up *)

(** X15.  When the constructor of the Graphlit client throws at start-up,
    [startup_event] raises the fixed [RuntimeError] and leaves the global
    unset; a process that serves in that state answers every request that
    names a source with the status-500 "not initialized" error, without any
    call.  When the constructor returns an object with a client, the handler
    gets past that check. *)
Theorem startup_decides_client_check getenv new_Graphlit :
  (forall e,
     new_Graphlit (getenv "GRAPHLIT_ORGANIZATION_ID")
                  (getenv "GRAPHLIT_ENVIRONMENT_ID")
                  (getenv "GRAPHLIT_JWT_SECRET") = Throws e ->
     startup_event getenv new_Graphlit None =
       (Raise (RuntimeError "Failed to initialize Graphlit client. Exiting."), None)
     /\
     forall req st,
       no_source req = false ->
       generate_sdk_endpoint lib
         (serving (snd (startup_event getenv new_Graphlit None)) env) req st =
       (Raise (HTTPException 500
          "Graphlit client not initialized. Check backend logs for errors related to GRAPHLIT_ environment variables."),
        st))
  /\
  (forall instance,
     new_Graphlit (getenv "GRAPHLIT_ORGANIZATION_ID")
                  (getenv "GRAPHLIT_ENVIRONMENT_ID")
                  (getenv "GRAPHLIT_JWT_SECRET") = Returns instance ->
     client instance <> None ->
     startup_event getenv new_Graphlit None = (Ok tt, Some instance)
     /\
     forall st,
       @get_graphlit_client S
         (serving (snd (startup_event getenv new_Graphlit None)) env) st
       = (Ok tt, st)).
Proof.
  split.
  - intros e He. unfold startup_event. rewrite He. simpl.
    split; [reflexivity|]. intros req st Hsrc.
    rewrite endpoint_eq, Hsrc. reflexivity.
  - intros [[c|]] Hi Hc; [|now destruct Hc].
    unfold startup_event. rewrite Hi. simpl.
    split; [reflexivity|]. intros st. reflexivity.
Qed.

(** *** More on the routes and on what can leave *)

(** X16.  Ingestion of a URL, when it succeeds: the workflow is looked up
    and at most created, and the last call submits the URL as given, with the
    workflow identifier that provisioning returned; the upload, if any, is
    not looked at. *)
Theorem url_is_ingested_as_given req st cid st1 :
  Py.truthy_opt (doc_url req) = true ->
  ingest_step lib env req st = (Ok (Some cid), st1) ->
  exists url wid st0 evs,
    doc_url req = Some url /\
    get_or_create_graphlit_workflow lib env st = (Ok wid, st0) /\
    trace st1 =
    (trace st ++ EvQueryWorkflows "ApiDocTextExtractionWorkflow" :: evs ++
     [EvIngestUri url wid])%list /\
    (evs = [] \/ evs = [EvCreateWorkflow workflow_input]).
Proof.
  intros Hu. unfold ingest_step. rewrite Hu. unfold bind.
  destruct (ingest_document_with_graphlit lib env (Some (sdk_name req))
              (doc_url req) None None st) as [[c|e] st2] eqn:Hing;
    intros H; inversion H; subst; clear H.
  destruct (ingest_ok_shape _ _ _ _ _ _ _ Hing)
    as [_ [wid [st0 [Hprov [[u [Hsome [_ Ht]]] | [Hfalse _]]]]]];
    [|congruence].
  destruct (provision_trace_cases st) as [evs [Ep Hevs]].
  rewrite Hprov in Ep. simpl in Ep.
  exists u, wid, st0, evs.
  split; [exact Hsome|]. split; [exact Hprov|]. split; [|exact Hevs].
  rewrite Ht, Ep. now rewrite <- app_assoc.
Qed.

(** X17.  Every shape of an empty lookup answer counts as "not found": no
    response object, no [workflows], no [results], or an empty list.  The
    provisioner then creates the workflow and returns the identifier of the
    created one. *)
Theorem provision_creates_when_lookup_is_empty st r s0 i s1 :
  r = None \/ r = Some {| workflows := None |} \/
  r = Some {| workflows := Some {| results := None |} |} \/
  r = Some {| workflows := Some {| results := Some [] |} |} ->
  query_workflows env "ApiDocTextExtractionWorkflow" (svc st) = (Returns r, s0) ->
  create_workflow env workflow_input s0 =
    (Returns {| create_workflow_ := Some {| entity_id := i |} |}, s1) ->
  get_or_create_graphlit_workflow lib env st =
  (Ok i,
   {| svc := s1;
      trace := (trace st ++ [EvQueryWorkflows "ApiDocTextExtractionWorkflow";
                             EvCreateWorkflow workflow_input])%list |}).
Proof.
  intros Hr Hq Hc.
  unfold get_or_create_graphlit_workflow, try_except, bind, call.
  fold workflow_name in Hq. rewrite Hq. simpl.
  assert (Hf : found_workflows r = []).
  { destruct Hr as [->|[->|[->| ->]]]; reflexivity. }
  rewrite Hf. simpl. rewrite Hc. simpl. now rewrite <- app_assoc.
Qed.

(** X18.  The handler only lets [HTTPException]s out: whatever a
    collaborator throws, the caller sees a status and a detail. *)
Theorem endpoint_raises_only_http req st e :
  fst (generate_sdk_endpoint lib env req st) = Raise e ->
  exists status detail, e = HTTPException status detail.
Proof.
  rewrite endpoint_eq.
  destruct (no_source req); [simpl; intros H; inversion H; eauto|].
  destruct (negb (client_initialized env)); [simpl; intros H; inversion H; eauto|].
  destruct (generate_code lib env req st) as [[code|e0] st1]; simpl.
  - intros H. discriminate H.
  - destruct (endpoint_handler_raises lib (A := GenerateSdkResponse) e0 st1)
      as [status [detail [st2 E]]].
    rewrite E. simpl. intros H. inversion H. eauto.
Qed.

(** X19.  The retrieval adapter turns every failure into status 500, and so
    does the ingestion adapter once provisioning has returned. *)
Theorem adapters_raise_only_500 :
  (forall cid st e,
     fst (get_content_markdown_from_graphlit lib env cid st) = Raise e ->
     exists detail, e = HTTPException 500 detail)
  /\
  (forall name uri fc mime st wid st0 e,
     get_or_create_graphlit_workflow lib env st = (Ok wid, st0) ->
     fst (ingest_document_with_graphlit lib env name uri fc mime st) = Raise e ->
     exists detail, e = HTTPException 500 detail).
Proof.
  split.
  - intros cid st e. unfold get_content_markdown_from_graphlit, try_except.
    match goal with
    | |- context [let (_, _) := ?m st in _] => destruct (m st) as [[md|e0] st1]
    end; simpl; [intros H; discriminate H|].
    destruct e0 as [status detail|[errs text|text]]; simpl;
      intros H; inversion H; eauto.
  - intros name uri fc mime st wid st0 e Hprov.
    unfold ingest_document_with_graphlit, bind at 1. rewrite Hprov.
    unfold try_except.
    match goal with
    | |- context [let (_, _) := ?m st0 in _] => destruct (m st0) as [[c|e0] st1]
    end; simpl; [intros H; discriminate H|].
    destruct e0 as [status detail|[errs text|text]]; simpl;
      intros H; inversion H; eauto.
Qed.

(** X21.  An outage of the service during the ingestion of a URL: when
    provisioning has returned and the ingestion call throws, the request
    fails with status 500 and a detail that carries the upstream error text;
    the ingestion call is the last one. *)
Theorem ingestion_outage_is_reported req st url wid st0 e s1 :
  client_initialized env = true ->
  doc_url req = Some url -> url <> "" ->
  get_or_create_graphlit_workflow lib env st = (Ok wid, st0) ->
  ingest_uri env url wid (svc st0) = (Throws e, s1) ->
  generate_sdk_endpoint lib env req st =
  (Raise (HTTPException 500 (ingestion_error_detail e)),
   {| svc := s1; trace := (trace st0 ++ [EvIngestUri url wid])%list |}).
Proof.
  intros Hcl Hurl Hne Hprov Hing.
  apply truthy_true_iff in Hne.
  rewrite endpoint_eq. unfold no_source. rewrite Hurl. simpl. rewrite Hne, Hcl. simpl.
  unfold generate_code, bind at 1. unfold retrieve_documentation, bind at 1.
  unfold ingest_step. rewrite Hurl. simpl. rewrite Hne.
  unfold bind at 1. unfold ingest_document_with_graphlit, bind at 1. rewrite Hprov.
  unfold try_except, bind, call. simpl. rewrite Hne, Hing.
  destruct e as [[es|] text|text]; reflexivity.
Qed.

(** *** Nothing is retried *)

Lemma ascending_weaken lo lo' evs :
  (lo' <= lo)%nat -> ascending lo evs = true -> ascending lo' evs = true.
Proof.
  destruct evs as [|ev rest]; simpl; [reflexivity|].
  intros Hle H. apply andb_true_iff in H. destruct H as [H1 H2].
  apply Nat.leb_le in H1. rewrite H2, andb_true_r. apply Nat.leb_le. lia.
Qed.

Lemma ascending_app lo mid e1 e2 :
  (lo <= mid)%nat ->
  ascending lo e1 = true ->
  forallb (fun ev => (stage ev <? mid)%nat) e1 = true ->
  ascending mid e2 = true ->
  ascending lo (e1 ++ e2) = true.
Proof.
  revert lo. induction e1 as [|ev rest IH]; intros lo Hle H1 Hb H2; simpl in *.
  - now apply ascending_weaken with (lo := mid).
  - apply andb_true_iff in H1. destruct H1 as [Ha Hr].
    apply andb_true_iff in Hb. destruct Hb as [Hs Hb].
    rewrite Ha. simpl. apply IH; try assumption.
    apply Nat.ltb_lt in Hs. lia.
Qed.

Lemma below_weaken hi hi' evs :
  (hi <= hi')%nat ->
  forallb (fun ev => (stage ev <? hi)%nat) evs = true ->
  forallb (fun ev => (stage ev <? hi')%nat) evs = true.
Proof.
  intros Hle H. rewrite forallb_forall in *. intros ev Hin.
  specialize (H ev Hin). apply Nat.ltb_lt in H. apply Nat.ltb_lt. lia.
Qed.

Lemma ascending_sorted lo evs :
  ascending lo evs = true ->
  StronglySorted lt (map stage evs) /\ Forall (fun s => (lo <= s)%nat) (map stage evs).
Proof.
  revert lo. induction evs as [|ev rest IH]; intros lo H; simpl in *.
  - split; constructor.
  - apply andb_true_iff in H. destruct H as [H1 H2]. apply Nat.leb_le in H1.
    destruct (IH _ H2) as [Hs Hf]. split.
    + constructor; [exact Hs|].
      eapply Forall_impl; [|exact Hf]. simpl. intros s Hs'. lia.
    + constructor; [exact H1|].
      eapply Forall_impl; [|exact Hf]. simpl. intros s Hs'. lia.
Qed.

Lemma steps_ret {A} lo hi (a : A) : steps lo hi (@ret S A a).
Proof. intros st. exists []. simpl. now rewrite app_nil_r. Qed.

Lemma steps_raise {A} lo hi e : steps lo hi (@raise S A e).
Proof. intros st. exists []. simpl. now rewrite app_nil_r. Qed.

Lemma steps_getattr {A} lo hi attr (x : option A) :
  steps lo hi (@getattr S A attr x).
Proof. destruct x; [apply steps_ret | apply steps_raise]. Qed.

Lemma steps_call {A} lo hi ev (op : S -> outcome A * S) :
  (lo <= stage ev)%nat -> (stage ev < hi)%nat -> steps lo hi (call ev op).
Proof.
  intros Hlo Hhi st. exists [ev]. unfold call.
  apply Nat.leb_le in Hlo. apply Nat.ltb_lt in Hhi.
  destruct (op (svc st)) as [[a|e] s']; simpl; now rewrite Hlo, Hhi.
Qed.

Lemma steps_bind {A B} lo mid hi (m : M S A) (k : A -> M S B) :
  (lo <= mid)%nat -> (mid <= hi)%nat ->
  steps lo mid m -> (forall a, steps mid hi (k a)) -> steps lo hi (bind m k).
Proof.
  intros Hlm Hmh Hm Hk st. unfold bind.
  destruct (Hm st) as [e1 [E1 [A1 B1]]].
  destruct (m st) as [[a|e] st1]; simpl in *.
  - destruct (Hk a st1) as [e2 [E2 [A2 B2]]]. exists (e1 ++ e2)%list.
    split; [now rewrite E2, E1, app_assoc|]. split.
    + now apply ascending_app with (mid := mid).
    + rewrite forallb_app, B2, andb_true_r. now apply below_weaken with (hi := mid).
  - exists e1. split; [exact E1|]. split; [exact A1|].
    now apply below_weaken with (hi := mid).
Qed.

Lemma steps_try_except {A} lo mid hi (m : M S A) (h : exn -> M S A) :
  (lo <= mid)%nat -> (mid <= hi)%nat ->
  steps lo mid m -> (forall e, steps mid hi (h e)) -> steps lo hi (try_except m h).
Proof.
  intros Hlm Hmh Hm Hh st. unfold try_except.
  destruct (Hm st) as [e1 [E1 [A1 B1]]].
  destruct (m st) as [[a|e] st1]; simpl in *.
  - exists e1. split; [exact E1|]. split; [exact A1|].
    now apply below_weaken with (hi := mid).
  - destruct (Hh e st1) as [e2 [E2 [A2 B2]]]. exists (e1 ++ e2)%list.
    split; [now rewrite E2, E1, app_assoc|]. split.
    + now apply ascending_app with (mid := mid).
    + rewrite forallb_app, B2, andb_true_r. now apply below_weaken with (hi := mid).
Qed.

Lemma steps_weaken {A} lo lo' hi hi' (m : M S A) :
  (lo' <= lo)%nat -> (hi <= hi')%nat -> steps lo hi m -> steps lo' hi' m.
Proof.
  intros Hlo Hhi Hm st. destruct (Hm st) as [evs [E [Ha Hb]]].
  exists evs. split; [exact E|]. split.
  - now apply ascending_weaken with (lo := lo).
  - now apply below_weaken with (hi := hi).
Qed.

Ltac quiet :=
  repeat first
    [ apply steps_ret
    | apply steps_raise
    | apply steps_getattr
    | match goal with
      | |- steps _ _ (match ?x with _ => _ end) => destruct x
      end ].

Lemma provision_steps : steps 1 3 (get_or_create_graphlit_workflow lib env).
Proof.
  unfold get_or_create_graphlit_workflow.
  apply steps_try_except with (mid := 3); [lia | lia | | intros e; quiet].
  apply steps_bind with (mid := 2); [lia | lia | apply steps_call; simpl; lia |].
  intros r. destruct (found_workflows r) as [|first rest].
  - apply steps_bind with (mid := 3); [lia | lia | apply steps_call; simpl; lia |].
    intros response. apply steps_bind with (mid := 3); [lia | lia | quiet |].
    intros w. quiet.
  - apply steps_bind with (mid := 2); [lia | lia | quiet | intros w; quiet].
Qed.

Lemma ingest_steps name uri fc mime :
  steps 1 4 (ingest_document_with_graphlit lib env name uri fc mime).
Proof.
  unfold ingest_document_with_graphlit.
  apply steps_bind with (mid := 3); [lia | lia | apply provision_steps | intros wid].
  apply steps_try_except with (mid := 4); [lia | lia | | intros e; quiet].
  apply steps_bind with (mid := 4); [lia | lia | | intros c; quiet].
  destruct (Py.truthy_opt uri).
  - apply steps_bind with (mid := 4); [lia | lia | apply steps_call; simpl; lia |].
    intros response. apply steps_bind with (mid := 4); [lia | lia | quiet |].
    intros w. quiet.
  - destruct (truthy_bytes fc); [|quiet].
    apply steps_bind with (mid := 4); [lia | lia | apply steps_call; simpl; lia |].
    intros response. apply steps_bind with (mid := 4); [lia | lia | quiet |].
    intros w. quiet.
Qed.

Lemma ingest_step_steps req : steps 0 4 (ingest_step lib env req).
Proof.
  unfold ingest_step. destruct (Py.truthy_opt (doc_url req)).
  - apply steps_bind with (mid := 4); [lia | lia | | intros c; quiet].
    apply steps_weaken with (lo := 1) (hi := 4); [lia | lia | apply ingest_steps].
  - destruct (doc_file req) as [f|]; [|quiet].
    apply steps_bind with (mid := 1); [lia | lia | | intros data].
    { intros st. exists [EvReadUpload (filename f)]. simpl. auto. }
    apply steps_bind with (mid := 1); [lia | lia | | intros mime].
    { unfold determine_mime_type. quiet. }
    apply steps_bind with (mid := 4); [lia | lia | apply ingest_steps | intros c; quiet].
Qed.

Lemma get_markdown_steps cid :
  steps 4 5 (get_content_markdown_from_graphlit lib env cid).
Proof.
  unfold get_content_markdown_from_graphlit.
  apply steps_try_except with (mid := 5); [lia | lia | | intros e; quiet].
  apply steps_bind with (mid := 5); [lia | lia | apply steps_call; simpl; lia |].
  intros details. quiet.
Qed.

Lemma generate_code_steps req : steps 0 6 (generate_code lib env req).
Proof.
  unfold generate_code, retrieve_documentation, run_team.
  apply steps_bind with (mid := 5); [lia | lia | | intros raw].
  - apply steps_bind with (mid := 4); [lia | lia | apply ingest_step_steps |].
    intros cid. destruct (negb (Py.truthy_opt cid)); [quiet|].
    apply steps_bind with (mid := 5); [lia | lia | apply get_markdown_steps |].
    intros raw. quiet.
  - apply steps_bind with (mid := 6); [lia | lia | apply steps_call; simpl; lia |].
    intros team_result. quiet.
Qed.

Lemma endpoint_steps req : steps 0 7 (generate_sdk_endpoint lib env req).
Proof.
  unfold generate_sdk_endpoint, get_graphlit_client, generate_sdk_usage_example,
    endpoint_handler.
  destruct (no_source req); [quiet|].
  apply steps_bind with (mid := 0); [lia | lia | quiet | intros _].
  apply steps_try_except with (mid := 7); [lia | lia | | intros e; quiet].
  apply steps_bind with (mid := 6); [lia | lia | apply generate_code_steps |].
  intros code.
  apply steps_bind with (mid := 7); [lia | lia | | intros usage; quiet].
  apply steps_try_except with (mid := 7); [lia | lia | | intros e; quiet].
  apply steps_bind with (mid := 7); [lia | lia | apply steps_call; simpl; lia |].
  intros response. apply steps_bind with (mid := 7); [lia | lia | quiet |].
  intros text. quiet.
Qed.

(** X20.  The calls of a request follow one order: reading the upload,
    looking the workflow up, creating it, ingesting, retrieving, running the
    team, running the usage agent.  Their stages increase strictly, so no
    kind of call is made twice: nothing is retried, whether the request
    succeeds or fails. *)
Theorem calls_follow_one_order req st :
  exists evs,
    trace (snd (generate_sdk_endpoint lib env req st)) = (trace st ++ evs)%list /\
    StronglySorted lt (map stage evs).
Proof.
  destruct (endpoint_steps req st) as [evs [E [Ha _]]].
  exists evs. split; [exact E|]. now apply (ascending_sorted 0).
Qed.

End Coverage.

(** ** The further properties on the concrete service *)

Lemma provision_reuses_first_result_witness :
  get_or_create_graphlit_workflow Demo.lib healthy two_workflows =
  (Ok "wf-old",
   {| svc := svc two_workflows;
      trace := ([] ++ [EvQueryWorkflows "ApiDocTextExtractionWorkflow"])%list |}).
Proof.
  apply (provision_reuses_first_result Demo.lib healthy two_workflows
           (Some (Demo.lookup workflow_name (svc two_workflows)))
           (svc two_workflows) "wf-old" [Some {| entity_id := "wf-new" |}]);
    reflexivity.
Defined.

Lemma provision_lookup_failure_witness :
  fst (get_or_create_graphlit_workflow Demo.lib
         (lookup_down (GraphQLClientError (Some "[quota exceeded]") "multi error"))
         initial) =
  Raise (HTTPException 500
           ("Graphlit API error during workflow creation: " ++ "[quota exceeded]")).
Proof.
  exact (provision_lookup_failure Demo.lib
           (lookup_down (GraphQLClientError (Some "[quota exceeded]") "multi error"))
           initial (GraphQLClientError (Some "[quota exceeded]") "multi error")
           [] eq_refl).
Defined.

Lemma adapter_success_shape_witness :
  readme_content_id <> "" /\
  exists wid st0,
    get_or_create_graphlit_workflow Demo.lib healthy initial = (Ok wid, st0) /\
    ((exists u, Some "https://example.com/readme" = Some u /\ u <> "" /\
        trace (snd (ingest_document_with_graphlit Demo.lib healthy (Some "MyApiSdk")
                      (Some "https://example.com/readme") None None initial)) =
        (trace st0 ++ [EvIngestUri u wid])%list)
     \/
     (Py.truthy_opt (Some "https://example.com/readme") = false /\
      exists b, @None bytes = Some b /\ b <> [] /\
        trace (snd (ingest_document_with_graphlit Demo.lib healthy (Some "MyApiSdk")
                      (Some "https://example.com/readme") None None initial)) =
        (trace st0 ++ [EvIngestEncodedFile (Some "MyApiSdk")
                         (b64encode Demo.lib b) None wid])%list)).
Proof.
  apply (adapter_success_shape Demo.lib healthy (Some "MyApiSdk")
           (Some "https://example.com/readme") None None initial readme_content_id
           (snd (ingest_document_with_graphlit Demo.lib healthy (Some "MyApiSdk")
                   (Some "https://example.com/readme") None None initial))).
  reflexivity.
Defined.

Lemma retrieval_returns_service_markdown_witness :
  Demo.doc_text <> "" /\
  exists s',
    get_content healthy readme_content_id (svc initial) =
      (Returns (Some {| content := Some {| markdown := Some Demo.doc_text |} |}), s') /\
    snd (get_content_markdown_from_graphlit Demo.lib healthy readme_content_id initial) =
    {| svc := s'; trace := (trace initial ++ [EvGetContent readme_content_id])%list |}.
Proof.
  apply (retrieval_returns_service_markdown Demo.lib healthy readme_content_id initial
           Demo.doc_text
           (snd (get_content_markdown_from_graphlit Demo.lib healthy
                   readme_content_id initial))).
  reflexivity.
Defined.

Lemma retrieval_outage_is_reported_witness :
  generate_sdk_endpoint Demo.lib (retrieval_down (OtherError "503 Service Unavailable"))
    Demo.readme_request initial =
  (Raise (HTTPException 500 "Backend error retrieving content: 503 Service Unavailable"),
   {| svc := [(workflow_name, "wf-0")];
      trace := (trace (snd (ingest_step Demo.lib
                              (retrieval_down (OtherError "503 Service Unavailable"))
                              Demo.readme_request initial))
                ++ [EvGetContent readme_content_id])%list |}).
Proof.
  apply (retrieval_outage_is_reported Demo.lib
           (retrieval_down (OtherError "503 Service Unavailable"))
           Demo.readme_request initial readme_content_id
           (snd (ingest_step Demo.lib
                   (retrieval_down (OtherError "503 Service Unavailable"))
                   Demo.readme_request initial))
           (OtherError "503 Service Unavailable") [(workflow_name, "wf-0")]);
    reflexivity.
Defined.

Lemma content_id_check_never_fires_witness :
  "Retrieved empty or invalid documentation content from Graphlit. Ensure the document contains readable text."
  <>
  "Graphlit ingestion failed to return a content ID. This may indicate an issue with Graphlit service or provided credentials/document.".
Proof.
  apply (content_id_check_never_fires Demo.lib blank_document Demo.readme_request
           initial 500%Z).
  reflexivity.
Defined.

Lemma success_call_sequence_witness :
  exists evs cid raw st1 s2 s3,
    ingest_step Demo.lib healthy Demo.readme_request initial = (Ok (Some cid), st1) /\
    trace st1 = (trace initial ++ evs)%list /\
    forallb (ingestion_event (Py.truthy_opt (doc_url Demo.readme_request))) evs = true /\
    get_content healthy cid (svc st1) =
      (Returns (Some {| content := Some {| markdown := Some raw |} |}), s2) /\
    Py.blank raw = false /\
    team_arun healthy
      (team_initial_input raw (sdk_name Demo.readme_request)
         (version Demo.readme_request) (base_url Demo.readme_request))
      s2 = (Returns {| run_content := Some (sdk_code healthy_response) |}, s3) /\
    sdk_usage_example healthy_response =
      usage_text (fst (usage_arun healthy
                         (usage_prompt (sdk_code healthy_response)
                            (sdk_name Demo.readme_request)
                            (base_url Demo.readme_request)) s3)) /\
    svc (snd (generate_sdk_endpoint Demo.lib healthy Demo.readme_request initial)) =
      snd (usage_arun healthy
             (usage_prompt (sdk_code healthy_response)
                (sdk_name Demo.readme_request)
                (base_url Demo.readme_request)) s3) /\
    trace (snd (generate_sdk_endpoint Demo.lib healthy Demo.readme_request initial)) =
    (trace initial ++ evs ++
     [EvGetContent cid;
      EvTeamRun (team_initial_input raw (sdk_name Demo.readme_request)
                   (version Demo.readme_request) (base_url Demo.readme_request));
      EvUsageRun (usage_prompt (sdk_code healthy_response)
                    (sdk_name Demo.readme_request)
                    (base_url Demo.readme_request))])%list.
Proof.
  apply (success_call_sequence Demo.lib healthy Demo.readme_request initial
           healthy_response
           (snd (generate_sdk_endpoint Demo.lib healthy Demo.readme_request initial))).
  vm_compute. reflexivity.
Defined.

Lemma failure_skips_usage_witness :
  exists evs,
    trace (snd (generate_sdk_endpoint Demo.lib prose_team Demo.readme_request initial)) =
      (trace initial ++ evs)%list /\
    existsb is_usage evs = false.
Proof.
  apply (failure_skips_usage Demo.lib prose_team Demo.readme_request initial
           (HTTPException 500 quality_failure_detail)).
  reflexivity.
Defined.

Lemma plausible_code_is_returned_verbatim_witness :
  exists usage st',
    generate_sdk_endpoint Demo.lib usage_down Demo.readme_request initial =
    (Ok {| sdk_code := Demo.sdk_text;
           sdk_usage_example := usage;
           message := "TypeScript SDK generated successfully! SDK Name: " ++ "MyApiSdk" |},
     st').
Proof.
  apply (plausible_code_is_returned_verbatim Demo.lib usage_down Demo.readme_request
           initial Demo.doc_text
           (snd (retrieve_documentation Demo.lib usage_down Demo.readme_request initial))
           Demo.sdk_text [(workflow_name, "wf-0")]
           "class" "export " " MyApiSdk { async ping() {} }").
  - reflexivity.
  - reflexivity.
  - vm_compute. reflexivity.
  - vm_compute. reflexivity.
  - simpl. tauto.
  - reflexivity.
Defined.

Lemma team_outage_is_reported_witness :
  fst (generate_sdk_endpoint Demo.lib (team_down (OtherError "429 quota exhausted"))
         Demo.readme_request initial) =
  Raise (HTTPException 500
    "An unexpected internal server error occurred: 429 quota exhausted. Please check backend logs for more details.").
Proof.
  rewrite (team_outage_is_reported Demo.lib (team_down (OtherError "429 quota exhausted"))
             Demo.readme_request initial Demo.doc_text
             (snd (retrieve_documentation Demo.lib
                     (team_down (OtherError "429 quota exhausted"))
                     Demo.readme_request initial))
             (OtherError "429 quota exhausted") [(workflow_name, "wf-0")]).
  - reflexivity.
  - reflexivity.
  - reflexivity.
  - vm_compute. reflexivity.
  - vm_compute. reflexivity.
Defined.

Lemma upload_is_ingested_as_received_witness :
  exists f mime wid evs,
    doc_file markdown_upload = Some f /\
    file_data f <> [] /\
    mime <> "" /\
    trace (snd (ingest_step Demo.lib healthy markdown_upload initial)) =
    (trace initial ++ EvReadUpload (filename f) ::
     EvQueryWorkflows "ApiDocTextExtractionWorkflow" :: evs ++
     [EvIngestEncodedFile (filename f) (b64encode Demo.lib (file_data f))
                          (Some mime) wid])%list /\
    (evs = [] \/ evs = [EvCreateWorkflow workflow_input]).
Proof.
  apply (upload_is_ingested_as_received Demo.lib healthy markdown_upload initial
           "content-of-upload"
           (snd (ingest_step Demo.lib healthy markdown_upload initial)));
    reflexivity.
Defined.

Lemma upload_without_filename_fails_witness :
  exists detail,
    generate_sdk_endpoint Demo.lib healthy nameless_upload initial =
    (Raise (HTTPException 500 detail),
     {| svc := svc initial; trace := (trace initial ++ [EvReadUpload None])%list |}).
Proof.
  apply (upload_without_filename_fails Demo.lib healthy nameless_upload initial
           {| filename := None; content_type := None;
              file_data := [Byte.x23; Byte.x20; Byte.x41] |});
    try reflexivity.
  left. reflexivity.
Defined.

Lemma startup_decides_client_check_witness :
  (startup_event no_settings strict_constructor None =
     (Raise (RuntimeError "Failed to initialize Graphlit client. Exiting."), None)
   /\
   generate_sdk_endpoint Demo.lib
     (serving (snd (startup_event no_settings strict_constructor None)) healthy)
     Demo.readme_request initial =
   (Raise (HTTPException 500
      "Graphlit client not initialized. Check backend logs for errors related to GRAPHLIT_ environment variables."),
    initial))
  /\
  (startup_event (fun _ => Some "configured") strict_constructor None =
     (Ok tt, Some {| client := Some tt |})
   /\
   @get_graphlit_client Demo.Store
     (serving (snd (startup_event (fun _ => Some "configured") strict_constructor None))
              healthy) initial
   = (Ok tt, initial)).
Proof.
  split.
  - destruct (proj1 (startup_decides_client_check Demo.lib healthy
                       no_settings strict_constructor)
                (OtherError "organization_id is required") eq_refl) as [H1 H2].
    split; [exact H1 | apply H2; reflexivity].
  - destruct (proj2 (startup_decides_client_check Demo.lib healthy
                       (fun _ => Some "configured") strict_constructor)
                {| client := Some tt |} eq_refl) as [H1 H2]; [discriminate|].
    split; [exact H1 | apply H2].
Defined.

Lemma url_is_ingested_as_given_witness :
  exists url wid st0 evs,
    doc_url Demo.readme_request = Some url /\
    get_or_create_graphlit_workflow Demo.lib healthy initial = (Ok wid, st0) /\
    trace (snd (ingest_step Demo.lib healthy Demo.readme_request initial)) =
      (trace initial ++ EvQueryWorkflows "ApiDocTextExtractionWorkflow" :: evs ++
       [EvIngestUri url wid])%list /\
    (evs = [] \/ evs = [EvCreateWorkflow workflow_input]).
Proof.
  apply (url_is_ingested_as_given Demo.lib healthy Demo.readme_request initial
           readme_content_id
           (snd (ingest_step Demo.lib healthy Demo.readme_request initial)));
    reflexivity.
Defined.

Lemma provision_creates_when_lookup_is_empty_witness :
  get_or_create_graphlit_workflow Demo.lib healthy initial =
  (Ok "wf-0",
   {| svc := [(workflow_name, "wf-0")];
      trace := (trace initial ++ [EvQueryWorkflows "ApiDocTextExtractionWorkflow";
                                  EvCreateWorkflow workflow_input])%list |}).
Proof.
  apply (provision_creates_when_lookup_is_empty Demo.lib healthy initial
           (Some {| workflows := Some {| results := Some [] |} |}) [] "wf-0"
           [(workflow_name, "wf-0")]).
  - right. right. right. reflexivity.
  - reflexivity.
  - reflexivity.
Defined.

Lemma endpoint_raises_only_http_witness :
  exists status detail,
    HTTPException 500 "Backend error retrieving content: 503 Service Unavailable" =
    HTTPException status detail.
Proof.
  apply (endpoint_raises_only_http Demo.lib
           (retrieval_down (OtherError "503 Service Unavailable"))
           Demo.readme_request initial).
  reflexivity.
Defined.

Lemma adapters_raise_only_500_witness :
  (exists detail,
     HTTPException 500 "Graphlit API error retrieving content: [not found]" =
     HTTPException 500 detail)
  /\
  (exists detail,
     HTTPException 500
       "Backend error during ingestion: 'NoneType' object has no attribute 'id'" =
     HTTPException 500 detail).
Proof.
  destruct (adapters_raise_only_500 Demo.lib
              (retrieval_down (GraphQLClientError (Some "[not found]") "multi error")))
    as [H1 _].
  destruct (adapters_raise_only_500 Demo.lib
              {| client_initialized := true;
                 query_workflows := query_workflows healthy;
                 create_workflow := create_workflow healthy;
                 ingest_uri := fun _ _ store =>
                   (Returns {| ingest_uri_ := None |}, store);
                 ingest_encoded_file := ingest_encoded_file healthy;
                 get_content := get_content healthy;
                 team_arun := team_arun healthy;
                 usage_arun := usage_arun healthy |})
    as [_ H2].
  split.
  - apply (H1 readme_content_id initial). reflexivity.
  - apply (H2 (Some "MyApiSdk") (Some "https://example.com/readme") None None initial
              "wf-0"
              {| svc := [(workflow_name, "wf-0")];
                 trace := [EvQueryWorkflows workflow_name;
                           EvCreateWorkflow workflow_input] |});
      reflexivity.
Defined.

Lemma ingestion_outage_is_reported_witness :
  generate_sdk_endpoint Demo.lib
    (ingestion_down (GraphQLClientError (Some "[url not reachable]") "multi error"))
    Demo.readme_request initial =
  (Raise (HTTPException 500 "Graphlit API error during ingestion: [url not reachable]"),
   {| svc := [(workflow_name, "wf-0")];
      trace := ([EvQueryWorkflows workflow_name; EvCreateWorkflow workflow_input] ++
                [EvIngestUri "https://example.com/readme" "wf-0"])%list |}).
Proof.
  apply (ingestion_outage_is_reported Demo.lib
           (ingestion_down (GraphQLClientError (Some "[url not reachable]") "multi error"))
           Demo.readme_request initial "https://example.com/readme" "wf-0"
           {| svc := [(workflow_name, "wf-0")];
              trace := [EvQueryWorkflows workflow_name;
                        EvCreateWorkflow workflow_input] |}
           (GraphQLClientError (Some "[url not reachable]") "multi error")
           [(workflow_name, "wf-0")]);
    try reflexivity.
  discriminate.
Defined.
